(** * Game-session synchronisation of the chess client (src/App.tsx)

    A shallow embedding of the [App] component: its React state, the
    mutable [Chess] objects it shares between closures, the socket.io
    client, the pending [setTimeout] callbacks, and every handler that
    touches them.  The rules engine (the third-party package chess.js) and
    the move selector ([getBestMove] of utils/simpleEngine) are taken as
    parameters; a small executable rules engine, [MiniChess], instantiates
    them so that the handlers can be run on concrete positions. *)

From Stdlib Require Import ZArith Lia Bool Ascii String DecimalString.
From stdpp Require Import base list strings gmap.

Local Open Scope string_scope.

(** ** types.ts *)

Inductive PieceType := tp | tn | tb | tr | tq | tk.
Inductive PieceColor := cw | cb.
Inductive GameMode := friend | bot | online.
Inductive Difficulty := easy | medium | hard | impossible.
Inductive View := menu | game_view.

(** [interface Move { from; to; promotion? }] *)
Record Move := { from : string; to : string; promotion : option string }.

#[global] Instance PieceType_eq_dec : EqDecision PieceType.
Proof. solve_decision. Defined.
#[global] Instance PieceColor_eq_dec : EqDecision PieceColor.
Proof. solve_decision. Defined.
#[global] Instance GameMode_eq_dec : EqDecision GameMode.
Proof. solve_decision. Defined.
#[global] Instance Difficulty_eq_dec : EqDecision Difficulty.
Proof. solve_decision. Defined.
#[global] Instance View_eq_dec : EqDecision View.
Proof. solve_decision. Defined.

(** [c === 'w' ? 'b' : 'w'] *)
Definition opposite (c : PieceColor) : PieceColor :=
  match c with cw => cb | cb => cw end.

(** ** The rules engine as the component sees it

    What [game.move] returns: chess.js's verbose move, of which the
    component reads [color] and [captured]. *)
Record MoveResult := {
  mr_color : PieceColor;
  mr_from : string;
  mr_to : string;
  mr_piece : PieceType;
  mr_captured : option PieceType
}.

(** [game.move] is called with a [{from, to, promotion}] object (human and
    remote moves) and with a notation string (the bot's move). *)
Inductive MoveArg :=
| ObjMove (m : Move)
| SanMove (s : string).

(** The methods of a [Chess] object used by the component.  [Game] is the
    state of one object.  A method that throws is a [None]: chess.js (1.x,
    the version with [isGameOver], [inCheck], ...) validates the move or
    the FEN before touching the object, so a throw leaves it as it was. *)
Record ChessJs := {
  Game : Type;
  newChess : Game;
  turn : Game -> PieceColor;
  fen_of : Game -> string;
  move : Game -> MoveArg -> option (Game * MoveResult);
  load : Game -> string -> option Game;
  history : Game -> list MoveResult;
  isGameOver : Game -> bool;
  inCheck : Game -> bool;
  isCheckmate : Game -> bool;
  isDraw : Game -> bool;
  isStalemate : Game -> bool;
  isThreefoldRepetition : Game -> bool;
  isInsufficientMaterial : Game -> bool
}.

(** ** State of the component and of its environment *)

(** One entry of the captured-piece ledger: [{type, color}]. *)
Record CapturedPiece := { cp_type : PieceType; cp_color : PieceColor }.

(** [captured : {w: [...], b: [...]}], keyed by the capturing side. *)
Record Ledger := { led_w : list CapturedPiece; led_b : list CapturedPiece }.

Definition ledger_get (l : Ledger) (c : PieceColor) : list CapturedPiece :=
  match c with cw => led_w l | cb => led_b l end.

(** [{...prev, [c]: [...prev[c], x]}] *)
Definition ledger_push (l : Ledger) (c : PieceColor) (x : CapturedPiece) : Ledger :=
  match c with
  | cw => {| led_w := led_w l ++ [x]; led_b := led_b l |}
  | cb => {| led_w := led_w l; led_b := led_b l ++ [x] |}
  end.

Definition empty_ledger : Ledger := {| led_w := []; led_b := [] |}.

(** Messages handed to [socket.emit]. *)
Inductive Emit :=
| emit_create_room
| emit_join_room (roomId : string)
| emit_move (roomId : string) (m : Move) (fen : string).

Inductive Sound := playMove | playCapture | playCheck | playGameEnd.

Inductive LogEntry :=
| log_reconnecting (roomId : string)
| warn_desync
| error_move_received.

(** The socket.io client: [autoConnect: false], so it starts closed;
    [connect()] opens it and the [connect] event reports the established
    transport. *)
Inductive SocketState := sock_closed | sock_opening | sock_connected.

#[global] Instance SocketState_eq_dec : EqDecision SocketState.
Proof. solve_decision. Defined.

(** [makeMove] is a [useCallback] over [game, gameMode, playerColor,
    roomId]: a call reads the values of the render that created it.  The
    callback given to [setTimeout] in the bot effect keeps the [game]
    object, [difficulty] and [makeMove] of the render that scheduled it. *)
Record MakeMoveClosure := {
  mm_game : nat;
  mm_gameMode : GameMode;
  mm_playerColor : PieceColor;
  mm_roomId : string
}.

Record BotTimer := {
  bt_game : nat;
  bt_difficulty : Difficulty;
  bt_makeMove : MakeMoveClosure
}.

Section Component.

Context (E : ChessJs).

(** [getBestMove(game, difficulty)]: a notation string or [null]. *)
Context (getBestMove : Game E -> Difficulty -> option string).

(** The [useState] cells of [App], the [isBotThinking] ref, and the
    environment: the [Chess] objects allocated so far ([game] is a
    reference into [heap], [next_ref] the next unused reference), the
    socket, the emitted messages, the pending bot timers, the number of
    pending [setCopied(false)] timers, the clipboard, the console and the
    sounds played. *)
Record App := {
  view : View;
  gameMode : GameMode;
  difficulty : Difficulty;
  game : nat;
  fen : string;
  captured : Ledger;
  roomId : string;
  playerColor : PieceColor;
  isOnlineGameStarted : bool;
  joinRoomId : string;
  error : string;
  copied : bool;
  isBotThinking : bool;
  heap : gmap nat (Game E);
  next_ref : nat;
  socket : SocketState;
  socket_id : string;
  outbox : list Emit;
  timers : list BotTimer;
  copy_timers : nat;
  clipboard : string;
  console : list LogEntry;
  sounds : list Sound
}.

Definition setView (v : View) (s : App) : App :=
  {| view := v; gameMode := gameMode s; difficulty := difficulty s; game := game s;
     fen := fen s; captured := captured s; roomId := roomId s;
     playerColor := playerColor s; isOnlineGameStarted := isOnlineGameStarted s;
     joinRoomId := joinRoomId s; error := error s; copied := copied s;
     isBotThinking := isBotThinking s; heap := heap s; next_ref := next_ref s;
     socket := socket s; socket_id := socket_id s; outbox := outbox s;
     timers := timers s; copy_timers := copy_timers s; clipboard := clipboard s;
     console := console s; sounds := sounds s |}.

Definition setGameMode (m : GameMode) (s : App) : App :=
  {| view := view s; gameMode := m; difficulty := difficulty s; game := game s;
     fen := fen s; captured := captured s; roomId := roomId s;
     playerColor := playerColor s; isOnlineGameStarted := isOnlineGameStarted s;
     joinRoomId := joinRoomId s; error := error s; copied := copied s;
     isBotThinking := isBotThinking s; heap := heap s; next_ref := next_ref s;
     socket := socket s; socket_id := socket_id s; outbox := outbox s;
     timers := timers s; copy_timers := copy_timers s; clipboard := clipboard s;
     console := console s; sounds := sounds s |}.

Definition setDifficulty (d : Difficulty) (s : App) : App :=
  {| view := view s; gameMode := gameMode s; difficulty := d; game := game s;
     fen := fen s; captured := captured s; roomId := roomId s;
     playerColor := playerColor s; isOnlineGameStarted := isOnlineGameStarted s;
     joinRoomId := joinRoomId s; error := error s; copied := copied s;
     isBotThinking := isBotThinking s; heap := heap s; next_ref := next_ref s;
     socket := socket s; socket_id := socket_id s; outbox := outbox s;
     timers := timers s; copy_timers := copy_timers s; clipboard := clipboard s;
     console := console s; sounds := sounds s |}.

Definition setGame (r : nat) (s : App) : App :=
  {| view := view s; gameMode := gameMode s; difficulty := difficulty s; game := r;
     fen := fen s; captured := captured s; roomId := roomId s;
     playerColor := playerColor s; isOnlineGameStarted := isOnlineGameStarted s;
     joinRoomId := joinRoomId s; error := error s; copied := copied s;
     isBotThinking := isBotThinking s; heap := heap s; next_ref := next_ref s;
     socket := socket s; socket_id := socket_id s; outbox := outbox s;
     timers := timers s; copy_timers := copy_timers s; clipboard := clipboard s;
     console := console s; sounds := sounds s |}.

Definition setFen (f : string) (s : App) : App :=
  {| view := view s; gameMode := gameMode s; difficulty := difficulty s;
     game := game s; fen := f; captured := captured s; roomId := roomId s;
     playerColor := playerColor s; isOnlineGameStarted := isOnlineGameStarted s;
     joinRoomId := joinRoomId s; error := error s; copied := copied s;
     isBotThinking := isBotThinking s; heap := heap s; next_ref := next_ref s;
     socket := socket s; socket_id := socket_id s; outbox := outbox s;
     timers := timers s; copy_timers := copy_timers s; clipboard := clipboard s;
     console := console s; sounds := sounds s |}.

Definition setCaptured (l : Ledger) (s : App) : App :=
  {| view := view s; gameMode := gameMode s; difficulty := difficulty s;
     game := game s; fen := fen s; captured := l; roomId := roomId s;
     playerColor := playerColor s; isOnlineGameStarted := isOnlineGameStarted s;
     joinRoomId := joinRoomId s; error := error s; copied := copied s;
     isBotThinking := isBotThinking s; heap := heap s; next_ref := next_ref s;
     socket := socket s; socket_id := socket_id s; outbox := outbox s;
     timers := timers s; copy_timers := copy_timers s; clipboard := clipboard s;
     console := console s; sounds := sounds s |}.

Definition setRoomId (r : string) (s : App) : App :=
  {| view := view s; gameMode := gameMode s; difficulty := difficulty s;
     game := game s; fen := fen s; captured := captured s; roomId := r;
     playerColor := playerColor s; isOnlineGameStarted := isOnlineGameStarted s;
     joinRoomId := joinRoomId s; error := error s; copied := copied s;
     isBotThinking := isBotThinking s; heap := heap s; next_ref := next_ref s;
     socket := socket s; socket_id := socket_id s; outbox := outbox s;
     timers := timers s; copy_timers := copy_timers s; clipboard := clipboard s;
     console := console s; sounds := sounds s |}.

Definition setPlayerColor (c : PieceColor) (s : App) : App :=
  {| view := view s; gameMode := gameMode s; difficulty := difficulty s;
     game := game s; fen := fen s; captured := captured s; roomId := roomId s;
     playerColor := c; isOnlineGameStarted := isOnlineGameStarted s;
     joinRoomId := joinRoomId s; error := error s; copied := copied s;
     isBotThinking := isBotThinking s; heap := heap s; next_ref := next_ref s;
     socket := socket s; socket_id := socket_id s; outbox := outbox s;
     timers := timers s; copy_timers := copy_timers s; clipboard := clipboard s;
     console := console s; sounds := sounds s |}.

Definition setIsOnlineGameStarted (b : bool) (s : App) : App :=
  {| view := view s; gameMode := gameMode s; difficulty := difficulty s;
     game := game s; fen := fen s; captured := captured s; roomId := roomId s;
     playerColor := playerColor s; isOnlineGameStarted := b;
     joinRoomId := joinRoomId s; error := error s; copied := copied s;
     isBotThinking := isBotThinking s; heap := heap s; next_ref := next_ref s;
     socket := socket s; socket_id := socket_id s; outbox := outbox s;
     timers := timers s; copy_timers := copy_timers s; clipboard := clipboard s;
     console := console s; sounds := sounds s |}.

Definition setJoinRoomId (r : string) (s : App) : App :=
  {| view := view s; gameMode := gameMode s; difficulty := difficulty s;
     game := game s; fen := fen s; captured := captured s; roomId := roomId s;
     playerColor := playerColor s; isOnlineGameStarted := isOnlineGameStarted s;
     joinRoomId := r; error := error s; copied := copied s;
     isBotThinking := isBotThinking s; heap := heap s; next_ref := next_ref s;
     socket := socket s; socket_id := socket_id s; outbox := outbox s;
     timers := timers s; copy_timers := copy_timers s; clipboard := clipboard s;
     console := console s; sounds := sounds s |}.

Definition setError (e : string) (s : App) : App :=
  {| view := view s; gameMode := gameMode s; difficulty := difficulty s;
     game := game s; fen := fen s; captured := captured s; roomId := roomId s;
     playerColor := playerColor s; isOnlineGameStarted := isOnlineGameStarted s;
     joinRoomId := joinRoomId s; error := e; copied := copied s;
     isBotThinking := isBotThinking s; heap := heap s; next_ref := next_ref s;
     socket := socket s; socket_id := socket_id s; outbox := outbox s;
     timers := timers s; copy_timers := copy_timers s; clipboard := clipboard s;
     console := console s; sounds := sounds s |}.

Definition setCopied (b : bool) (s : App) : App :=
  {| view := view s; gameMode := gameMode s; difficulty := difficulty s;
     game := game s; fen := fen s; captured := captured s; roomId := roomId s;
     playerColor := playerColor s; isOnlineGameStarted := isOnlineGameStarted s;
     joinRoomId := joinRoomId s; error := error s; copied := b;
     isBotThinking := isBotThinking s; heap := heap s; next_ref := next_ref s;
     socket := socket s; socket_id := socket_id s; outbox := outbox s;
     timers := timers s; copy_timers := copy_timers s; clipboard := clipboard s;
     console := console s; sounds := sounds s |}.

(** [isBotThinking.current = b] *)
Definition setBotThinking (b : bool) (s : App) : App :=
  {| view := view s; gameMode := gameMode s; difficulty := difficulty s;
     game := game s; fen := fen s; captured := captured s; roomId := roomId s;
     playerColor := playerColor s; isOnlineGameStarted := isOnlineGameStarted s;
     joinRoomId := joinRoomId s; error := error s; copied := copied s;
     isBotThinking := b; heap := heap s; next_ref := next_ref s;
     socket := socket s; socket_id := socket_id s; outbox := outbox s;
     timers := timers s; copy_timers := copy_timers s; clipboard := clipboard s;
     console := console s; sounds := sounds s |}.

Definition setHeap (h : gmap nat (Game E)) (s : App) : App :=
  {| view := view s; gameMode := gameMode s; difficulty := difficulty s;
     game := game s; fen := fen s; captured := captured s; roomId := roomId s;
     playerColor := playerColor s; isOnlineGameStarted := isOnlineGameStarted s;
     joinRoomId := joinRoomId s; error := error s; copied := copied s;
     isBotThinking := isBotThinking s; heap := h; next_ref := next_ref s;
     socket := socket s; socket_id := socket_id s; outbox := outbox s;
     timers := timers s; copy_timers := copy_timers s; clipboard := clipboard s;
     console := console s; sounds := sounds s |}.

Definition setNextRef (n : nat) (s : App) : App :=
  {| view := view s; gameMode := gameMode s; difficulty := difficulty s;
     game := game s; fen := fen s; captured := captured s; roomId := roomId s;
     playerColor := playerColor s; isOnlineGameStarted := isOnlineGameStarted s;
     joinRoomId := joinRoomId s; error := error s; copied := copied s;
     isBotThinking := isBotThinking s; heap := heap s; next_ref := n;
     socket := socket s; socket_id := socket_id s; outbox := outbox s;
     timers := timers s; copy_timers := copy_timers s; clipboard := clipboard s;
     console := console s; sounds := sounds s |}.

Definition setSocket (k : SocketState) (s : App) : App :=
  {| view := view s; gameMode := gameMode s; difficulty := difficulty s;
     game := game s; fen := fen s; captured := captured s; roomId := roomId s;
     playerColor := playerColor s; isOnlineGameStarted := isOnlineGameStarted s;
     joinRoomId := joinRoomId s; error := error s; copied := copied s;
     isBotThinking := isBotThinking s; heap := heap s; next_ref := next_ref s;
     socket := k; socket_id := socket_id s; outbox := outbox s; timers := timers s;
     copy_timers := copy_timers s; clipboard := clipboard s; console := console s;
     sounds := sounds s |}.

Definition setSocketId (i : string) (s : App) : App :=
  {| view := view s; gameMode := gameMode s; difficulty := difficulty s;
     game := game s; fen := fen s; captured := captured s; roomId := roomId s;
     playerColor := playerColor s; isOnlineGameStarted := isOnlineGameStarted s;
     joinRoomId := joinRoomId s; error := error s; copied := copied s;
     isBotThinking := isBotThinking s; heap := heap s; next_ref := next_ref s;
     socket := socket s; socket_id := i; outbox := outbox s; timers := timers s;
     copy_timers := copy_timers s; clipboard := clipboard s; console := console s;
     sounds := sounds s |}.

Definition setOutbox (o : list Emit) (s : App) : App :=
  {| view := view s; gameMode := gameMode s; difficulty := difficulty s;
     game := game s; fen := fen s; captured := captured s; roomId := roomId s;
     playerColor := playerColor s; isOnlineGameStarted := isOnlineGameStarted s;
     joinRoomId := joinRoomId s; error := error s; copied := copied s;
     isBotThinking := isBotThinking s; heap := heap s; next_ref := next_ref s;
     socket := socket s; socket_id := socket_id s; outbox := o; timers := timers s;
     copy_timers := copy_timers s; clipboard := clipboard s; console := console s;
     sounds := sounds s |}.

Definition setTimers (t : list BotTimer) (s : App) : App :=
  {| view := view s; gameMode := gameMode s; difficulty := difficulty s;
     game := game s; fen := fen s; captured := captured s; roomId := roomId s;
     playerColor := playerColor s; isOnlineGameStarted := isOnlineGameStarted s;
     joinRoomId := joinRoomId s; error := error s; copied := copied s;
     isBotThinking := isBotThinking s; heap := heap s; next_ref := next_ref s;
     socket := socket s; socket_id := socket_id s; outbox := outbox s; timers := t;
     copy_timers := copy_timers s; clipboard := clipboard s; console := console s;
     sounds := sounds s |}.

Definition setCopyTimers (n : nat) (s : App) : App :=
  {| view := view s; gameMode := gameMode s; difficulty := difficulty s;
     game := game s; fen := fen s; captured := captured s; roomId := roomId s;
     playerColor := playerColor s; isOnlineGameStarted := isOnlineGameStarted s;
     joinRoomId := joinRoomId s; error := error s; copied := copied s;
     isBotThinking := isBotThinking s; heap := heap s; next_ref := next_ref s;
     socket := socket s; socket_id := socket_id s; outbox := outbox s;
     timers := timers s; copy_timers := n; clipboard := clipboard s;
     console := console s; sounds := sounds s |}.

Definition setClipboard (x : string) (s : App) : App :=
  {| view := view s; gameMode := gameMode s; difficulty := difficulty s;
     game := game s; fen := fen s; captured := captured s; roomId := roomId s;
     playerColor := playerColor s; isOnlineGameStarted := isOnlineGameStarted s;
     joinRoomId := joinRoomId s; error := error s; copied := copied s;
     isBotThinking := isBotThinking s; heap := heap s; next_ref := next_ref s;
     socket := socket s; socket_id := socket_id s; outbox := outbox s;
     timers := timers s; copy_timers := copy_timers s; clipboard := x;
     console := console s; sounds := sounds s |}.

Definition setConsole (c : list LogEntry) (s : App) : App :=
  {| view := view s; gameMode := gameMode s; difficulty := difficulty s;
     game := game s; fen := fen s; captured := captured s; roomId := roomId s;
     playerColor := playerColor s; isOnlineGameStarted := isOnlineGameStarted s;
     joinRoomId := joinRoomId s; error := error s; copied := copied s;
     isBotThinking := isBotThinking s; heap := heap s; next_ref := next_ref s;
     socket := socket s; socket_id := socket_id s; outbox := outbox s;
     timers := timers s; copy_timers := copy_timers s; clipboard := clipboard s;
     console := c; sounds := sounds s |}.

Definition setSounds (x : list Sound) (s : App) : App :=
  {| view := view s; gameMode := gameMode s; difficulty := difficulty s;
     game := game s; fen := fen s; captured := captured s; roomId := roomId s;
     playerColor := playerColor s; isOnlineGameStarted := isOnlineGameStarted s;
     joinRoomId := joinRoomId s; error := error s; copied := copied s;
     isBotThinking := isBotThinking s; heap := heap s; next_ref := next_ref s;
     socket := socket s; socket_id := socket_id s; outbox := outbox s;
     timers := timers s; copy_timers := copy_timers s; clipboard := clipboard s;
     console := console s; sounds := x |}.

Definition emit (m : Emit) (s : App) : App := setOutbox (outbox s ++ [m]) s.
Definition log (l : LogEntry) (s : App) : App := setConsole (console s ++ [l]) s.
Definition play (x : Sound) (s : App) : App := setSounds (sounds s ++ [x]) s.

(** Reading and writing the [Chess] object behind a reference, and
    [new Chess()], which gives a reference never used before. *)
Definition deref (s : App) (r : nat) : Game E := default (newChess E) (heap s !! r).
Definition store (r : nat) (g : Game E) (s : App) : App := setHeap (<[r := g]> (heap s)) s.
Definition alloc (g : Game E) (s : App) : nat * App :=
  (next_ref s, setNextRef (S (next_ref s)) (store (next_ref s) g s)).

(** A JavaScript string used as a condition. *)
Definition truthy (x : string) : bool := negb (x =? "").

(** [String.prototype.toUpperCase], on ASCII text. *)
Definition upper_ascii (c : ascii) : ascii :=
  let n := nat_of_ascii c in
  if (97 <=? n)%nat && (n <=? 122)%nat then ascii_of_nat (n - 32) else c.

Fixpoint toUpperCase (x : string) : string :=
  match x with
  | EmptyString => EmptyString
  | String c r => String (upper_ascii c) (toUpperCase r)
  end.

(** ** Handlers *)

(** The sound chosen after a move that left the object in state [g]. *)
Definition moveSound (g : Game E) (was_capture : bool) : Sound :=
  if isGameOver E g then playGameEnd
  else if inCheck E g then playCheck
  else if was_capture then playCapture
  else playMove.

(** [resetGame] *)
Definition resetGame (s : App) : App :=
  let '(newGame, s1) := alloc (newChess E) s in
  let s2 := setGame newGame s1 in
  let s3 := setFen (fen_of E (newChess E)) s2 in
  let s4 := setCaptured empty_ledger s3 in
  let s5 := setBotThinking false s4 in
  play playMove s5.

(** [startGame(mode, diff)] *)
Definition startGame (mode : GameMode) (diff : option Difficulty) (s : App) : App :=
  let s1 := setGameMode mode s in
  let s2 := match diff with Some d => setDifficulty d s1 | None => s1 end in
  let s3 := resetGame s2 in
  if bool_decide (mode = online) then
    if bool_decide (socket s3 = sock_connected) then s3
    else setSocket sock_opening s3
  else setView game_view s3.

(** [returnToMenu] *)
Definition returnToMenu (s : App) : App :=
  let s1 := setView menu s in
  if bool_decide (gameMode s = online) then
    let s2 := setSocket sock_closed s1 in
    let s3 := setRoomId "" s2 in
    let s4 := setIsOnlineGameStarted false s3 in
    let s5 := setJoinRoomId "" s4 in
    setError "" s5
  else s1.

(** The values [makeMove] closes over in the current render. *)
Definition current_makeMove (s : App) : MakeMoveClosure :=
  {| mm_game := game s; mm_gameMode := gameMode s;
     mm_playerColor := playerColor s; mm_roomId := roomId s |}.

(** [makeMove(move)]: the boolean it returns and the state it leaves.
    A throw of [game.move] is caught and gives [false]. *)
Definition makeMove (c : MakeMoveClosure) (mv : Move) (s : App) : bool * App :=
  let g := deref s (mm_game c) in
  if bool_decide (mm_gameMode c = online)
     && negb (bool_decide (turn E g = mm_playerColor c))
  then (false, s)
  else
    match move E g (ObjMove mv) with
    | None => (false, s)
    | Some (g1, result) =>
        let s1 := store (mm_game c) g1 s in
        let s2 := setFen (fen_of E g1) s1 in
        let s3 := play (moveSound g1 (bool_decide (is_Some (mr_captured result)))) s2 in
        let s4 :=
          match mr_captured result with
          | Some t =>
              setCaptured
                (ledger_push (captured s3) (mr_color result)
                   {| cp_type := t; cp_color := opposite (mr_color result) |}) s3
          | None => s3
          end in
        let s5 :=
          if bool_decide (mm_gameMode c = online)
          then emit (emit_move (mm_roomId c) mv (fen_of E g1)) s4
          else s4 in
        (true, s5)
    end.

(** The body of the bot effect. *)
Definition botEffect (s : App) : App :=
  let g := deref s (game s) in
  if bool_decide (gameMode s = bot) && negb (isGameOver E g)
     && bool_decide (turn E g = cb) && negb (isBotThinking s)
  then
    let s1 := setBotThinking true s in
    setTimers (timers s1 ++
      [{| bt_game := game s; bt_difficulty := difficulty s;
          bt_makeMove := current_makeMove s |}]) s1
  else s.

(** The callback scheduled by the bot effect.  When [game.move] rejects
    the selected move, or the history has no last move to read
    [captured] from, the callback is left by the exception and the line
    that clears [isBotThinking] is not reached. *)
Definition botCallback (t : BotTimer) (s : App) : App :=
  match getBestMove (deref s (bt_game t)) (bt_difficulty t) with
  | Some bestMoveSan =>
      if truthy bestMoveSan then
        let s1 := snd (makeMove (bt_makeMove t)
                         {| from := ""; to := ""; promotion := Some "" |} s) in
        match move E (deref s1 (bt_game t)) (SanMove bestMoveSan) with
        | None => s1
        | Some (g2, _) =>
            let s2 := store (bt_game t) g2 s1 in
            let s3 := setFen (fen_of E g2) s2 in
            if isGameOver E g2 then setBotThinking false (play playGameEnd s3)
            else if inCheck E g2 then setBotThinking false (play playCheck s3)
            else
              match last (history E g2) with
              | None => s3
              | Some lastMove =>
                  match mr_captured lastMove with
                  | Some t' =>
                      let s4 := play playCapture s3 in
                      setBotThinking false
                        (setCaptured
                           (ledger_push (captured s4) (mr_color lastMove)
                              {| cp_type := t'; cp_color := opposite (mr_color lastMove) |})
                           s4)
                  | None => setBotThinking false (play playMove s3)
                  end
              end
        end
      else setBotThinking false s
  | None => setBotThinking false s
  end.

(** [socket.on('connect', handleConnect)] *)
Definition handleConnect (s : App) : App :=
  if truthy (roomId s) && bool_decide (gameMode s = online)
  then emit (emit_join_room (roomId s)) (log (log_reconnecting (roomId s)) s)
  else s.

(** [socket.on('room_created', ...)] *)
Definition on_room_created (id : string) (s : App) : App :=
  setPlayerColor cw (setRoomId id s).

(** [socket.on('game_start', ...)].  A [load] that throws leaves the
    handler after the updates already made. *)
Definition on_game_start (white black : string) (serverFen : option string) (s : App) : App :=
  let s1 := setIsOnlineGameStarted true s in
  let s2 := setView game_view s1 in
  let s3 :=
    if socket_id s =? black then setPlayerColor cb s2
    else if socket_id s =? white then setPlayerColor cw s2
    else s2 in
  match serverFen with
  | Some f =>
      if truthy f then
        match load E (deref s3 (game s3)) f with
        | Some g1 => setFen f (store (game s3) g1 s3)
        | None => s3
        end
      else s3
  | None => s3
  end.

(** The [catch] block of the [move_received] handler, entered with the
    object in state [g]. *)
Definition move_received_catch (newFen : string) (g : Game E) (s : App) : App :=
  let s1 := log error_move_received s in
  match load E g newFen with
  | Some g1 => setFen newFen (store (game s1) g1 s1)
  | None => s1
  end.

(** [socket.on('move_received', ...)] *)
Definition on_move_received (mv : Move) (newFen : string) (s : App) : App :=
  let g := deref s (game s) in
  match move E g (ObjMove mv) with
  | None => move_received_catch newFen g s
  | Some (g1, _) =>
      let s1 := store (game s) g1 s in
      if negb (fen_of E g1 =? newFen) then
        let s2 := log warn_desync s1 in
        match load E g1 newFen with
        | None => move_received_catch newFen g1 s2
        | Some g2 =>
            let s3 := store (game s) g2 s2 in
            let s4 := setFen (fen_of E g2) s3 in
            play (moveSound g2 false) s4
        end
      else
        let s4 := setFen (fen_of E g1) s1 in
        play (moveSound g1 false) s4
  end.

(** [socket.on('error', ...)] *)
Definition on_error (msg : string) (s : App) : App := setError msg s.

(** [createRoom] *)
Definition createRoom (s : App) : App := emit emit_create_room s.

(** [joinRoom] *)
Definition joinRoom (s : App) : App :=
  if truthy (joinRoomId s)
  then setRoomId (joinRoomId s) (emit (emit_join_room (joinRoomId s)) s)
  else s.

(** [copyRoomId] *)
Definition copyRoomId (s : App) : App :=
  let s1 := setClipboard (roomId s) s in
  let s2 := setCopied true s1 in
  setCopyTimers (S (copy_timers s2)) s2.

(** ** Values derived at each render *)

Definition winner (g : Game E) : option string :=
  if isCheckmate E g then
    Some (if bool_decide (turn E g = cw) then "Black" else "White")
  else None.

Definition drawReason (g : Game E) : string :=
  if isDraw E g then
    if isStalemate E g then "Stalemate"
    else if isThreefoldRepetition E g then "Repetition"
    else if isInsufficientMaterial E g then "Insufficient Material"
    else "Draw"
  else "".

Definition statusText (s : App) : string :=
  let g := deref s (game s) in
  let base :=
    if bool_decide (gameMode s = online) then
      if bool_decide (turn E g = playerColor s) then "Your Turn" else "Opponent's Turn"
    else (if bool_decide (turn E g = cw) then "White's" else "Black's") ++ " Turn" in
  match winner g with
  | Some who => "Checkmate! " ++ who ++ " Wins!"
  | None =>
      if truthy (drawReason g) then "Draw: " ++ drawReason g
      else if inCheck E g then
        "Check! " ++ (if bool_decide (turn E g = cw) then "White" else "Black") ++ " to move."
      else base
  end.

(** ** Events and renders

    Everything that can run a handler: the buttons and the board of the
    rendered view, the oldest pending bot timer (all have the same delay,
    so they fire in the order they were set), a pending timer of
    [copyRoomId], and the socket. *)
Inductive Event :=
| click_startGame (mode : GameMode) (diff : option Difficulty)
| click_back
| click_createRoom
| input_joinRoomId (value : string)
| click_joinRoom
| click_copyRoomId
| click_returnToMenu
| click_resetGame
| board_onMove (m : Move)
| timer_fires
| copied_timer_fires
| socket_connect (id : string)
| socket_drop
| recv_room_created (id : string)
| recv_game_start (white black : string) (serverFen : option string)
| recv_move_received (m : Move) (newFen : string)
| recv_error (msg : string).

(** The two online panels of the menu view. *)
Definition panel_join (s : App) : bool :=
  negb (truthy (roomId s)) && negb (isOnlineGameStarted s)
  && bool_decide (gameMode s = online).

Definition panel_waiting (s : App) : bool :=
  truthy (roomId s) && negb (isOnlineGameStarted s)
  && bool_decide (gameMode s = online).

(** Which events the rendered view and the environment can produce.  The
    main menu calls [onStartGame] with a difficulty for the bot only; a
    closed socket delivers nothing. *)
Definition enabled (s : App) (e : Event) : bool :=
  match e with
  | click_startGame mode diff =>
      bool_decide (view s = menu) && negb (panel_join s) && negb (panel_waiting s)
      && match mode, diff with
         | bot, Some _ | friend, None | online, None => true
         | _, _ => false
         end
  | click_back | click_createRoom | input_joinRoomId _ | click_joinRoom =>
      bool_decide (view s = menu) && panel_join s
  | click_copyRoomId =>
      bool_decide (view s = menu) && negb (panel_join s) && panel_waiting s
  | click_returnToMenu =>
      bool_decide (view s = game_view)
      || (bool_decide (view s = menu) && negb (panel_join s) && panel_waiting s)
  | click_resetGame | board_onMove _ => bool_decide (view s = game_view)
  | timer_fires => negb (bool_decide (timers s = []))
  | copied_timer_fires => negb (copy_timers s =? 0)%nat
  | socket_connect _ => bool_decide (socket s = sock_opening)
  | socket_drop => bool_decide (socket s = sock_connected)
  | recv_room_created _ | recv_game_start _ _ _
  | recv_move_received _ _ | recv_error _ => bool_decide (socket s = sock_connected)
  end.

Definition handle (e : Event) (s : App) : App :=
  match e with
  | click_startGame mode diff => startGame mode diff s
  | click_back => setGameMode friend s
  | click_createRoom => createRoom s
  | input_joinRoomId v => setJoinRoomId (toUpperCase v) s
  | click_joinRoom => joinRoom s
  | click_copyRoomId => copyRoomId s
  | click_returnToMenu => returnToMenu s
  | click_resetGame => resetGame s
  | board_onMove m => snd (makeMove (current_makeMove s) m s)
  | timer_fires =>
      match timers s with
      | [] => s
      | t :: rest => botCallback t (setTimers rest s)
      end
  | copied_timer_fires => setCopied false (setCopyTimers (pred (copy_timers s)) s)
  | socket_connect id => handleConnect (setSocketId id (setSocket sock_connected s))
  | socket_drop => setSocket sock_opening s
  | recv_room_created id => on_room_created id s
  | recv_game_start white black serverFen => on_game_start white black serverFen s
  | recv_move_received m newFen => on_move_received m newFen s
  | recv_error msg => on_error msg s
  end.

(** The bot effect depends on [fen, gameMode, difficulty, game, makeMove],
    and [makeMove] on [game, gameMode, playerColor, roomId]: the effect
    body runs after a render in which one of these changed. *)
Definition bot_deps_changed (a b : App) : bool :=
  negb (fen a =? fen b)
  || negb (bool_decide (gameMode a = gameMode b))
  || negb (bool_decide (difficulty a = difficulty b))
  || negb (bool_decide (game a = game b))
  || negb (bool_decide (playerColor a = playerColor b))
  || negb (roomId a =? roomId b).

Definition render (before after : App) : App :=
  if bot_deps_changed before after then botEffect after else after.

(** One turn of the event loop: the handler, then the render. *)
Definition step (s : App) (e : Event) : App := render s (handle e s).

(** The state after a sequence of events, and whether each event of the
    sequence is enabled when its turn comes. *)
Definition steps (s : App) (es : list Event) : App := foldl step s es.

Fixpoint possible (s : App) (es : list Event) : bool :=
  match es with
  | [] => true
  | e :: es' => if enabled s e then possible (step s e) es' else false
  end.

(** The events that come from the relay. *)
Definition from_relay (e : Event) : bool :=
  match e with
  | recv_room_created _ | recv_game_start _ _ _
  | recv_move_received _ _ | recv_error _ => true
  | _ => false
  end.

(** A series of attempts on the board, each through the [makeMove] of the
    render it happens in; the number counts the attempts that [makeMove]
    accepted. *)
Fixpoint attempt_all (s : App) (ms : list Move) : App * nat :=
  match ms with
  | [] => (s, 0%nat)
  | m :: rest =>
      let '(ok, s1) := makeMove (current_makeMove s) m s in
      let '(s2, n) := attempt_all s1 rest in
      (s2, if ok then S n else n)
  end.

(** The component when it is mounted. *)
Definition initial : App :=
  {| view := menu; gameMode := friend; difficulty := medium; game := 0;
     fen := fen_of E (newChess E); captured := empty_ledger; roomId := "";
     playerColor := cw; isOnlineGameStarted := false; joinRoomId := "";
     error := ""; copied := false; isBotThinking := false;
     heap := {[ 0%nat := newChess E ]}; next_ref := 1;
     socket := sock_closed; socket_id := ""; outbox := []; timers := [];
     copy_timers := 0; clipboard := ""; console := []; sounds := [] |}.

End Component.

Arguments view {E}. Arguments gameMode {E}. Arguments difficulty {E}.
Arguments game {E}. Arguments fen {E}. Arguments captured {E}.
Arguments roomId {E}. Arguments playerColor {E}.
Arguments isOnlineGameStarted {E}. Arguments joinRoomId {E}.
Arguments error {E}. Arguments copied {E}. Arguments isBotThinking {E}.
Arguments heap {E}. Arguments next_ref {E}. Arguments socket {E}. Arguments socket_id {E}.
Arguments outbox {E}. Arguments timers {E}. Arguments console {E}.
Arguments sounds {E}. Arguments copy_timers {E}. Arguments clipboard {E}.
Arguments deref {E}. Arguments store {E}. Arguments makeMove {E}.
Arguments current_makeMove {E}. Arguments botEffect {E}.
Arguments botCallback {E}. Arguments resetGame {E}. Arguments startGame {E}.
Arguments returnToMenu {E}. Arguments handleConnect {E}.
Arguments on_room_created {E}. Arguments on_game_start {E}.
Arguments on_move_received {E}. Arguments move_received_catch {E}.
Arguments on_error {E}. Arguments createRoom {E}. Arguments joinRoom {E}.
Arguments copyRoomId {E}.
Arguments drawReason {E}. Arguments winner {E}. Arguments statusText {E}.
Arguments moveSound {E}. Arguments enabled {E}. Arguments handle {E}.
Arguments render {E}. Arguments step {E}. Arguments steps {E}.
Arguments possible {E}.
Arguments panel_join {E}. Arguments panel_waiting {E}.
Arguments attempt_all {E}.

(** ** Reachable states, frames and the main menu *)

Section Sessions.

Context (E : ChessJs).
Context (getBestMove : Game E -> Difficulty -> option string).

(** The states the component can be in: those that a sequence of enabled
    events leads to from the mounted component. *)
Definition reachable (s : App E) : Prop :=
  exists es, possible getBestMove (initial E) es = true
             /\ steps getBestMove (initial E) es = s.

(** The cells that no move touches, whoever makes it. *)
Definition keeps_session (s s' : App E) : Prop :=
  view s' = view s /\ gameMode s' = gameMode s /\ difficulty s' = difficulty s
  /\ game s' = game s /\ roomId s' = roomId s /\ playerColor s' = playerColor s
  /\ isOnlineGameStarted s' = isOnlineGameStarted s /\ joinRoomId s' = joinRoomId s
  /\ error s' = error s /\ copied s' = copied s /\ next_ref s' = next_ref s
  /\ socket s' = socket s /\ socket_id s' = socket_id s /\ timers s' = timers s
  /\ copy_timers s' = copy_timers s /\ clipboard s' = clipboard s.

(** A pending bot timer whose closures hold an allocated object, the same
    in both, and the bot mode. *)
Definition timer_ok (s : App E) (t : BotTimer) : Prop :=
  (bt_game t < next_ref s)%nat
  /\ mm_game (bt_makeMove t) = bt_game t
  /\ mm_gameMode (bt_makeMove t) = bot.

Definition refs_ok (s : App E) : Prop :=
  (game s < next_ref s)%nat /\ Forall (timer_ok s) (timers s).

(** The events whose handler calls [socket.emit] in state [s]. *)
Definition may_emit (s : App E) (e : Event) : bool :=
  match e with
  | click_createRoom | click_joinRoom | socket_connect _ => true
  | board_onMove _ => bool_decide (gameMode s = online)
  | _ => false
  end.

(** [isFlipped], the [orientation] given to the board, and the pieces
    given to the two [CapturedPieces] cards, above and below the board. *)
Definition isFlipped (s : App E) : bool :=
  bool_decide (gameMode s = online) && bool_decide (playerColor s = cb).

Definition orientation (s : App E) : PieceColor :=
  if bool_decide (gameMode s = online) then playerColor s else cw.

Definition topCaptured (s : App E) : list CapturedPiece :=
  if isFlipped s then led_b (captured s) else led_w (captured s).

Definition bottomCaptured (s : App E) : list CapturedPiece :=
  if isFlipped s then led_w (captured s) else led_b (captured s).

(** One sequence of a ledger extends another. *)
Definition ledger_extends (l l' : Ledger) : Prop :=
  led_w l `prefix_of` led_w l' /\ led_b l `prefix_of` led_b l'.

End Sessions.

Arguments reachable {E}. Arguments keeps_session {E}. Arguments timer_ok {E}.
Arguments refs_ok {E}. Arguments may_emit {E}. Arguments isFlipped {E}.
Arguments orientation {E}. Arguments topCaptured {E}. Arguments bottomCaptured {E}.

(** A string without the letters [a] to [z]. *)
Definition is_lower (c : ascii) : bool :=
  (97 <=? nat_of_ascii c)%nat && (nat_of_ascii c <=? 122)%nat.

Fixpoint no_lower (x : string) : bool :=
  match x with
  | EmptyString => true
  | String c r => negb (is_lower c) && no_lower r
  end.

(** *** components/MainMenu.tsx

    The menu keeps [selectedMode] ([null] at first).  Without a selected
    mode it shows the three opponents, with one the difficulties and
    [Back].  A click gives the new [selectedMode] and the call of
    [onStartGame], if it makes one. *)
Inductive MenuButton :=
| btn_friend
| btn_bot
| btn_online
| btn_back
| btn_difficulty (d : Difficulty).

Definition menu_shows (selectedMode : option GameMode) (b : MenuButton) : bool :=
  match selectedMode, b with
  | None, (btn_friend | btn_bot | btn_online) => true
  | Some _, (btn_back | btn_difficulty _) => true
  | _, _ => false
  end.

Definition menu_click (selectedMode : option GameMode) (b : MenuButton)
    : option GameMode * option (GameMode * option Difficulty) :=
  match b with
  | btn_friend => (selectedMode, Some (friend, None))
  | btn_bot => (Some bot, None)
  | btn_online => (selectedMode, Some (online, None))
  | btn_back => (None, None)
  | btn_difficulty d => (selectedMode, Some (bot, Some d))
  end.

(** A series of clicks, each on a button that is shown: the final
    [selectedMode] and the calls of [onStartGame] in order. *)
Fixpoint menu_clicks (selectedMode : option GameMode) (bs : list MenuButton)
    : option (option GameMode * list (GameMode * option Difficulty)) :=
  match bs with
  | [] => Some (selectedMode, [])
  | b :: rest =>
      if menu_shows selectedMode b then
        let '(sel, call) := menu_click selectedMode b in
        match menu_clicks sel rest with
        | Some (sel', calls) =>
            Some (sel', match call with Some c => c :: calls | None => calls end)
        | None => None
        end
      else None
  end.

(** The calls of [onStartGame] that give a difficulty to the bot and to
    nothing else. *)
Definition start_call_shape (mode : GameMode) (diff : option Difficulty) : bool :=
  match mode, diff with
  | bot, Some _ | friend, None | online, None => true
  | _, _ => false
  end.

(** ** A small rules engine

    chess.js is not part of the repository.  [MiniChess] is an executable
    stand-in with the same interface, used to run the handlers on concrete
    positions: the six pieces with their usual moves, captures, promotion,
    and the rule that a move may not leave the mover's king attacked.  It
    has no castling and no en-passant capture, so both FEN fields are
    always [-].  Moves given as strings are in coordinate form ([e2e4],
    [e7e8q]), which chess.js's parser accepts as well. *)
Module MiniChess.

Definition Piece : Type := PieceColor * PieceType.

(** 64 squares, a1 first, then b1, ..., h8. *)
Definition Board : Type := list (option Piece).

Record Pos := {
  board : Board;
  side : PieceColor;
  halfMoves : nat;
  moveNumber : nat;
  seen : list string;
  hist : list MoveResult
}.

Definition piece_at (b : Board) (i : nat) : option Piece := mjoin (b !! i).

Definition fileZ (i : nat) : Z := Z.of_nat (i mod 8).
Definition rankZ (i : nat) : Z := Z.of_nat (i / 8).

Definition index (f r : Z) : nat := Z.to_nat (r * 8 + f).

Definition parse_square (x : string) : option nat :=
  match x with
  | String f (String r EmptyString) =>
      let fi := nat_of_ascii f in
      let ri := nat_of_ascii r in
      if (97 <=? fi)%nat && (fi <=? 104)%nat && (49 <=? ri)%nat && (ri <=? 56)%nat
      then Some ((ri - 49) * 8 + (fi - 97))%nat
      else None
  | _ => None
  end.

Definition square_name (i : nat) : string :=
  String (ascii_of_nat (97 + i mod 8)) (String (ascii_of_nat (49 + i / 8)) EmptyString).

Definition parse_promotion (x : string) : option PieceType :=
  if x =? "q" then Some tq else if x =? "r" then Some tr
  else if x =? "b" then Some tb else if x =? "n" then Some tn else None.

(** The squares strictly between two squares of a line are empty. *)
Fixpoint ray_clear (b : Board) (f r sf sr : Z) (steps : nat) : bool :=
  match steps with
  | O => true
  | S k =>
      let f' := (f + sf)%Z in
      let r' := (r + sr)%Z in
      match piece_at b (index f' r') with
      | None => ray_clear b f' r' sf sr k
      | Some _ => false
      end
  end.

Definition forward (c : PieceColor) : Z := match c with cw => 1%Z | cb => (-1)%Z end.

(** The piece [pc] standing on [i] attacks square [j]. *)
Definition attacks (b : Board) (pc : Piece) (i j : nat) : bool :=
  let df := (fileZ j - fileZ i)%Z in
  let dr := (rankZ j - rankZ i)%Z in
  let adf := Z.abs df in
  let adr := Z.abs dr in
  let line (_ : unit) :=
    ray_clear b (fileZ i) (rankZ i) (Z.sgn df) (Z.sgn dr)
      (Z.to_nat (Z.max adf adr) - 1) in
  if (i =? j)%nat then false
  else
    match snd pc with
    | tn => ((adf =? 1) && (adr =? 2) || (adf =? 2) && (adr =? 1))%Z
    | tk => ((adf <=? 1) && (adr <=? 1))%Z
    | tr => if ((df =? 0) || (dr =? 0))%Z then line tt else false
    | tb => if (adf =? adr)%Z then line tt else false
    | tq => if (((df =? 0) || (dr =? 0))%Z || (adf =? adr)%Z) then line tt else false
    | tp => ((adf =? 1) && (dr =? forward (fst pc)))%Z
    end.

Definition squares : list nat := seq 0 64.

Definition attacked (b : Board) (by_side : PieceColor) (j : nat) : bool :=
  existsb (fun i =>
    match piece_at b i with
    | Some pc => if bool_decide (fst pc = by_side) then attacks b pc i j else false
    | None => false
    end) squares.

Definition king_square (b : Board) (c : PieceColor) : option nat :=
  find (fun i => bool_decide (piece_at b i = Some (c, tk))) squares.

Definition in_check (b : Board) (c : PieceColor) : bool :=
  match king_square b c with
  | Some kq => attacked b (opposite c) kq
  | None => false
  end.

Definition start_rank (c : PieceColor) : Z := match c with cw => 1%Z | cb => 6%Z end.
Definition last_rank (c : PieceColor) : Z := match c with cw => 7%Z | cb => 0%Z end.

(** The move obeys the piece's way of moving and does not take a piece
    of the mover's side. *)
Definition pseudo_legal (b : Board) (c : PieceColor) (i j : nat) : bool :=
  match piece_at b i with
  | Some pc =>
      if bool_decide (fst pc = c) then
        match piece_at b j with
        | Some target =>
            if bool_decide (fst target = c) then false else attacks b pc i j
        | None =>
            match snd pc with
            | tp =>
                (fileZ j =? fileZ i)%Z &&
                ((rankZ j =? rankZ i + forward c)%Z
                 || ((rankZ i =? start_rank c)%Z
                     && (rankZ j =? rankZ i + 2 * forward c)%Z
                     && bool_decide (piece_at b (index (fileZ i) (rankZ i + forward c)) = None)))
            | _ => attacks b pc i j
            end
        end
      else false
  | None => false
  end.

Definition promotes (b : Board) (i j : nat) : bool :=
  match piece_at b i with
  | Some (c, tp) => (rankZ j =? last_rank c)%Z
  | _ => false
  end.

Definition apply_board (b : Board) (i j : nat) (promo : option PieceType) : Board :=
  let moved :=
    match piece_at b i, promo with
    | Some (c, tp), Some t => if promotes b i j then Some (c, t) else Some (c, tp)
    | x, _ => x
    end in
  <[i := None]> (<[j := moved]> b).

Definition legal (b : Board) (c : PieceColor) (i j : nat) : bool :=
  if (i <? 64)%nat && (j <? 64)%nat then
    if pseudo_legal b c i j then negb (in_check (apply_board b i j None) c)
    else false
  else false.

Definition legal_moves (b : Board) (c : PieceColor) : list (nat * nat) :=
  i ← squares; j ← squares; if legal b c i j then [(i, j)] else [].

(** *** FEN *)

Definition piece_letter (pc : Piece) : ascii :=
  let l := match snd pc with
           | tp => "p" | tn => "n" | tb => "b" | tr => "r" | tq => "q" | tk => "k"
           end%char in
  match fst pc with
  | cw => ascii_of_nat (nat_of_ascii l - 32)
  | cb => l
  end.

Definition letter_piece (a : ascii) : option Piece :=
  find (fun pc => bool_decide (piece_letter pc = a))
    (c ← [cw; cb]; t ← [tp; tn; tb; tr; tq; tk]; [(c, t)]).

Definition digit (n : nat) : string :=
  match n with
  | O => EmptyString
  | _ => String (ascii_of_nat (48 + n)) EmptyString
  end.

Fixpoint rank_fen (cells : list (option Piece)) (empties : nat) : string :=
  match cells with
  | [] => digit empties
  | None :: rest => rank_fen rest (S empties)
  | Some pc :: rest => digit empties ++ String (piece_letter pc) (rank_fen rest 0)
  end.

Definition board_fen (b : Board) : string :=
  String.concat "/"
    (map (fun r => rank_fen (take 8 (drop (8 * r) b)) 0) [7; 6; 5; 4; 3; 2; 1; 0]%nat).

Definition side_letter (c : PieceColor) : string :=
  match c with cw => "w" | cb => "b" end.

Definition decimal (n : nat) : string := NilEmpty.string_of_uint (Nat.to_uint n).

Definition position_key (b : Board) (c : PieceColor) : string :=
  board_fen b ++ " " ++ side_letter c.

Definition fen_of (p : Pos) : string :=
  position_key (board p) (side p) ++ " - - "
  ++ decimal (halfMoves p) ++ " " ++ decimal (moveNumber p).

Fixpoint split_on (sep : ascii) (x : string) : list string :=
  match x with
  | EmptyString => [EmptyString]
  | String c rest =>
      if Ascii.eqb c sep then EmptyString :: split_on sep rest
      else match split_on sep rest with
           | [] => [String c EmptyString]
           | w :: ws => String c w :: ws
           end
  end.

Fixpoint parse_rank (x : string) : option (list (option Piece)) :=
  match x with
  | EmptyString => Some []
  | String c rest =>
      rest' ← parse_rank rest;
      let n := nat_of_ascii c in
      if (49 <=? n)%nat && (n <=? 56)%nat then Some (replicate (n - 48) None ++ rest')%list
      else pc ← letter_piece c; Some (Some pc :: rest')
  end.

Definition parse_board (x : string) : option Board :=
  rows ← mapM parse_rank (split_on "/" x);
  if bool_decide (length rows = 8%nat) && forallb (fun r => (length r =? 8)%nat) rows
  then Some (concat (reverse rows)) else None.

Definition parse_side (x : string) : option PieceColor :=
  if x =? "w" then Some cw else if x =? "b" then Some cb else None.

Definition parse_decimal (x : string) : option nat :=
  Nat.of_uint <$> NilEmpty.uint_of_string x.

Definition count_piece (b : Board) (pc : Piece) : nat :=
  length (filter (fun i => piece_at b i = Some pc) squares).

Definition parse_fen (x : string) : option Pos :=
  match split_on " " x with
  | [brd; sd; castling; ep; half; full] =>
      b ← parse_board brd;
      c ← parse_side sd;
      h ← parse_decimal half;
      m ← parse_decimal full;
      if (castling =? "-") && (ep =? "-")
         && (count_piece b (cw, tk) =? 1)%nat && (count_piece b (cb, tk) =? 1)%nat
      then Some {| board := b; side := c; halfMoves := h; moveNumber := m;
                   seen := [position_key b c]; hist := [] |}
      else None
  | _ => None
  end.

(** [load] accepts the FEN strings that [fen] prints, and nothing else;
    the object is replaced, whatever it held. *)
Definition load (_ : Pos) (x : string) : option Pos :=
  p ← parse_fen x;
  if fen_of p =? x then Some p else None.

(** *** Moves *)

Definition parse_move (a : MoveArg) : option (nat * nat * option PieceType) :=
  match a with
  | ObjMove m =>
      i ← parse_square (from m);
      j ← parse_square (to m);
      Some (i, j, promotion m ≫= parse_promotion)
  | SanMove x =>
      i ← parse_square (substring 0 2 x);
      j ← parse_square (substring 2 2 x);
      let rest := substring 4 (String.length x - 4) x in
      if rest =? "" then Some (i, j, None)
      else t ← parse_promotion rest; Some (i, j, Some t)
  end.

Definition move (p : Pos) (a : MoveArg) : option (Pos * MoveResult) :=
  '(i, j, promo) ← parse_move a;
  pc ← piece_at (board p) i;
  if (if promotes (board p) i j then bool_decide (is_Some promo) else true)
     && legal (board p) (side p) i j
  then
    let target := piece_at (board p) j in
    let b' := apply_board (board p) i j promo in
    let c' := opposite (side p) in
    let result :=
      {| mr_color := side p; mr_from := square_name i; mr_to := square_name j;
         mr_piece := snd pc; mr_captured := snd <$> target |} in
    Some ({| board := b'; side := c';
             halfMoves :=
               if bool_decide (snd pc = tp) || bool_decide (is_Some target)
               then 0 else S (halfMoves p);
             moveNumber :=
               match side p with cw => moveNumber p | cb => S (moveNumber p) end;
             seen := seen p ++ [position_key b' c'];
             hist := hist p ++ [result] |}, result)
  else None.

(** *** Status *)

Definition inCheck (p : Pos) : bool := in_check (board p) (side p).

Definition no_moves (p : Pos) : bool :=
  bool_decide (legal_moves (board p) (side p) = []).

Definition isCheckmate (p : Pos) : bool :=
  if inCheck p then no_moves p else false.

Definition isStalemate (p : Pos) : bool :=
  if inCheck p then false else no_moves p.

Definition isThreefoldRepetition (p : Pos) : bool :=
  (3 <=? length (filter (fun k => k = position_key (board p) (side p)) (seen p)))%nat.

Definition square_shade (i : nat) : nat := ((i mod 8 + i / 8) mod 2)%nat.

Definition isInsufficientMaterial (p : Pos) : bool :=
  let occupied := filter (fun i => is_Some (piece_at (board p) i)) squares in
  let of_type t :=
    filter (fun i => snd <$> piece_at (board p) i = Some t) squares in
  let bishops := of_type tb in
  let numPieces := length occupied in
  if (numPieces =? 2)%nat then true
  else if (numPieces =? 3)%nat
          && ((length bishops =? 1)%nat || (length (of_type tn) =? 1)%nat) then true
  else if (numPieces =? length bishops + 2)%nat then
    let shades := list_sum (map square_shade bishops) in
    (shades =? 0)%nat || (shades =? length bishops)%nat
  else false.

Definition isDraw (p : Pos) : bool :=
  if (100 <=? halfMoves p)%nat then true
  else if isInsufficientMaterial p then true
  else if isThreefoldRepetition p then true
  else isStalemate p.

Definition isGameOver (p : Pos) : bool :=
  if isDraw p then true else isCheckmate p.

Definition start_fen : string :=
  "rnbqkbnr/pppppppp/8/8/8/8/PPPPPPPP/RNBQKBNR w - - 0 1".

Definition newChess : Pos :=
  default {| board := []; side := cw; halfMoves := 0; moveNumber := 1;
             seen := []; hist := [] |} (parse_fen start_fen).

Definition engine : ChessJs :=
  Build_ChessJs Pos newChess side fen_of move load hist isGameOver inCheck
    isCheckmate isDraw isStalemate isThreefoldRepetition isInsufficientMaterial.

(** A move selector for the examples: the first legal move in square
    order (promoting to a queen), whatever the difficulty. *)
Definition firstMove (p : Game engine) (_ : Difficulty) : option string :=
  match legal_moves (board p) (side p) with
  | [] => None
  | (i, j) :: _ =>
      Some (square_name i ++ square_name j
            ++ (if promotes (board p) i j then "q" else ""))
  end.

End MiniChess.

(** ** Concrete sessions

    Event sequences and states over [MiniChess], used to run the handlers. *)
Module Examples.

Definition E0 : ChessJs := MiniChess.engine.

Definition mv (a b : string) : Move := {| from := a; to := b; promotion := None |}.

(** The state after a sequence of events from the mounted component. *)
Definition after (selector : Game E0 -> Difficulty -> option string)
    (es : list Event) : App E0 :=
  steps selector (initial E0) es.

(** The sequence can happen: each event is enabled in its turn. *)
Definition can_happen (selector : Game E0 -> Difficulty -> option string)
    (es : list Event) : bool :=
  possible selector (initial E0) es.

(** A move selector that follows a fixed line as Black. *)
Definition scripted (p : Game E0) (_ : Difficulty) : option string :=
  match MiniChess.moveNumber p with
  | 1 => Some "e7e5"
  | 2 => Some "d8h4"
  | 3 => Some "h4e4"
  | _ => None
  end%nat.

(** Peer [A] creates room [ROOM] and peer [B] joins: the local player is
    White. *)
Definition online_white : list Event :=
  [click_startGame online None; socket_connect "A"; click_createRoom;
   recv_room_created "ROOM"; recv_game_start "A" "B" None].

(** The same room seen from peer [B], who typed the code: the local
    player is Black. *)
Definition online_black : list Event :=
  [click_startGame online None; socket_connect "B"; input_joinRoomId "room";
   click_joinRoom; recv_game_start "A" "B" None].

(** An online game in which the remote side takes a pawn on its second
    move, each remote move arriving with the FEN that follows it. *)
Definition remote_capture : list Event :=
  (online_white ++
   [board_onMove (mv "e2" "e4");
    recv_move_received (mv "d7" "d5")
      "rnbqkbnr/ppp1pppp/8/3p4/4P3/8/PPPP1PPP/RNBQKBNR w - - 0 2";
    board_onMove (mv "a2" "a3");
    recv_move_received (mv "d5" "e4")
      "rnbqkbnr/ppp1pppp/8/8/4p3/P7/1PPP1PPP/RNBQKBNR w - - 0 3"])%list.

(** The same opening with the local side taking instead. *)
Definition local_capture : list Event :=
  (online_white ++
   [board_onMove (mv "e2" "e4");
    recv_move_received (mv "d7" "d5")
      "rnbqkbnr/ppp1pppp/8/3p4/4P3/8/PPPP1PPP/RNBQKBNR w - - 0 2";
    board_onMove (mv "e4" "d5")])%list.

(** A game against the bot playing [scripted]: 1. e4 e5 2. Ke2 Qh4
    3. d3 Qxe4+, the bot taking a pawn with check. *)
Definition bot_capture_with_check : list Event :=
  [click_startGame bot (Some easy);
   board_onMove (mv "e2" "e4"); timer_fires;
   board_onMove (mv "e1" "e2"); timer_fires;
   board_onMove (mv "d2" "d3"); timer_fires].

(** Against the bot: a move, [Reset Game] while the bot's timer is
    pending, and a move in the new game. *)
Definition reset_while_thinking : list Event :=
  [click_startGame bot (Some medium); board_onMove (mv "e2" "e4");
   click_resetGame; board_onMove (mv "e2" "e4")].

(** Against the bot: the human has moved and the bot's timer is pending. *)
Definition bot_to_move : list Event :=
  [click_startGame bot (Some medium); board_onMove (mv "e2" "e4")].

(** A move against the bot, then back to the menu, into the online
    panel, a room code entered and joined, and back to the menu again,
    all before the bot's timer fires. *)
Definition leave_online_with_timer : list Event :=
  (bot_to_move ++
   [click_returnToMenu; click_startGame online None;
    input_joinRoomId "abcd"; click_joinRoom; click_returnToMenu])%list.

(** A room is created, its code copied, and the session left. *)
Definition leave_online_after_copy : list Event :=
  [click_startGame online None; socket_connect "A"; click_createRoom;
   recv_room_created "ROOM"; click_copyRoomId; click_returnToMenu].

(** A two-player game after 1. e4 e5 2. Qh5: Black's f-pawn shields the
    king from the queen. *)
Definition pinned_pawn : list Event :=
  [click_startGame friend None; board_onMove (mv "e2" "e4");
   board_onMove (mv "e7" "e5"); board_onMove (mv "d1" "h5")].

Definition two_kings : string := "4k3/8/8/8/8/8/8/4K3 w - - 0 1".

(** A move selector that always answers [e2e4], which Black cannot play. *)
Definition stubborn (_ : Game E0) (_ : Difficulty) : option string := Some "e2e4".

(** The first timer of [reset_while_thinking], set in the game that was
    reset. *)
Definition orphan_timer : BotTimer :=
  {| bt_game := 1; bt_difficulty := medium;
     bt_makeMove := {| mm_game := 1; mm_gameMode := bot;
                       mm_playerColor := cw; mm_roomId := "" |} |}.

(** A two-player game left through [Menu] after 1. e4. *)
Definition left_local_game : list Event :=
  [click_startGame friend None; board_onMove (mv "e2" "e4"); click_returnToMenu].

End Examples.

(** * Properties of the handlers *)

Section Handlers.

Context (E : ChessJs).
Context (getBestMove : Game E -> Difficulty -> option string).

Implicit Types (s : App E) (g : Game E) (mv : Move) (c : MakeMoveClosure).

(** Reads of a reference just written. *)
Ltac heap_simpl :=
  unfold deref, store; simpl; rewrite ?lookup_insert_eq; simpl.

Lemma deref_store r g s : deref (store r g s) r = g.
Proof. unfold deref, store; simpl. by rewrite lookup_insert_eq. Qed.

Lemma truthy_true x : truthy x = true <-> x <> "".
Proof.
  unfold truthy. destruct (String.eqb_spec x ""); simpl; split; congruence.
Qed.

Lemma truthy_false x : truthy x = false <-> x = "".
Proof.
  unfold truthy. destruct (String.eqb_spec x ""); simpl; split; congruence.
Qed.

(** C2. When the rules engine rejects the move, [makeMove] returns
    [false] and leaves the whole state as it was: the position, the
    ledger and the list of emitted messages included.  The throw of
    [game.move] is caught inside [makeMove]. *)
Theorem makeMove_rejected c mv s :
  move E (deref s (mm_game c)) (ObjMove mv) = None ->
  makeMove c mv s = (false, s).
Proof.
  intros Hrej. unfold makeMove. rewrite Hrej.
  by destruct (_ && _).
Qed.

(** C3. In an online game, an attempt made while the side to move is not
    the player's colour returns [false] with the state untouched; when it
    is the player's colour the rules engine decides, and an accepted move
    is stored and sent to the relay with the new FEN. *)
Theorem makeMove_online_turn_guard mv s :
  gameMode s = online ->
  (turn E (deref s (game s)) <> playerColor s ->
     makeMove (current_makeMove s) mv s = (false, s)) /\
  (turn E (deref s (game s)) = playerColor s ->
     match move E (deref s (game s)) (ObjMove mv) with
     | None => makeMove (current_makeMove s) mv s = (false, s)
     | Some (g1, _) =>
         let s1 := snd (makeMove (current_makeMove s) mv s) in
         fst (makeMove (current_makeMove s) mv s) = true
         /\ deref s1 (game s) = g1
         /\ fen s1 = fen_of E g1
         /\ outbox s1 = (outbox s ++ [emit_move (roomId s) mv (fen_of E g1)])%list
     end).
Proof.
  intros Honline. unfold makeMove, current_makeMove; simpl. rewrite Honline.
  split; intros Hturn.
  - rewrite bool_decide_eq_true_2, bool_decide_eq_false_2 by done. done.
  - rewrite (bool_decide_eq_true_2 (turn E _ = _)) by done. simpl.
    destruct (move E _ _) as [[g1 result]|]; [|done]. simpl.
    repeat split.
    + destruct (mr_captured result); simpl; apply deref_store.
    + by destruct (mr_captured result).
    + by destruct (mr_captured result).
Qed.

(** C4, as the code has it.  Outside online games [makeMove] makes no
    turn check: an attempt is accepted whenever the rules engine accepts
    the move for the side to move, the bot's side included, and nothing is
    sent to the relay. *)
Theorem makeMove_bot_no_turn_check mv s g1 result :
  gameMode s = bot ->
  move E (deref s (game s)) (ObjMove mv) = Some (g1, result) ->
  let s1 := snd (makeMove (current_makeMove s) mv s) in
  fst (makeMove (current_makeMove s) mv s) = true
  /\ deref s1 (game s) = g1
  /\ fen s1 = fen_of E g1
  /\ outbox s1 = outbox s.
Proof.
  intros Hbot Hmove. unfold makeMove, current_makeMove; simpl.
  rewrite Hbot, Hmove. simpl.
  repeat split; destruct (mr_captured result); simpl; try done; apply deref_store.
Qed.

(** C1. A [move_received] event whose FEN the engine loads leaves the
    position at the declared one.  When the move applies and the FEN
    agrees, the position is the result of the move and nothing is logged;
    when the FEN differs, the declared position is loaded over the result
    and the desync is logged; when the move is rejected, the declared
    position is loaded over the old one.  For a FEN that the engine prints
    back as it is, the position and the [fen] cell both read the declared
    FEN afterwards. *)
Theorem move_received_reaches_declared mv newFen s :
  (forall g, is_Some (load E g newFen)) ->
  let s' := on_move_received mv newFen s in
  game s' = game s
  /\ match move E (deref s (game s)) (ObjMove mv) with
     | Some (g1, _) =>
         if fen_of E g1 =? newFen
         then deref s' (game s') = g1 /\ console s' = console s
         else load E g1 newFen = Some (deref s' (game s'))
              /\ console s' = (console s ++ [warn_desync])%list
     | None =>
         load E (deref s (game s)) newFen = Some (deref s' (game s'))
         /\ console s' = (console s ++ [error_move_received])%list
     end
  /\ ((forall g g', load E g newFen = Some g' -> fen_of E g' = newFen) ->
      fen_of E (deref s' (game s')) = newFen /\ fen s' = newFen).
Proof.
  intros Hload s'. subst s'. unfold on_move_received, move_received_catch.
  destruct (move E _ _) as [[g1 result]|] eqn:Hmove.
  - destruct (String.eqb_spec (fen_of E g1) newFen) as [Heq|Hne]; simpl.
    + repeat split; try done; heap_simpl; done.
    + destruct (Hload g1) as [g2 Hg2]. rewrite Hg2. simpl.
      repeat split; try done; heap_simpl; eauto.
  - destruct (Hload (deref s (game s))) as [g2 Hg2]. rewrite Hg2. simpl.
    repeat split; try done; heap_simpl; eauto.
Qed.

(** What a call of the current [makeMove] can do: nothing, or store the
    position the engine returned. *)
Lemma makeMove_current_cases mv s :
  game (snd (makeMove (current_makeMove s) mv s)) = game s
  /\ (fst (makeMove (current_makeMove s) mv s) = false ->
      snd (makeMove (current_makeMove s) mv s) = s)
  /\ (fst (makeMove (current_makeMove s) mv s) = true ->
      exists g1 result,
        move E (deref s (game s)) (ObjMove mv) = Some (g1, result)
        /\ deref (snd (makeMove (current_makeMove s) mv s)) (game s) = g1).
Proof.
  unfold makeMove, current_makeMove; simpl.
  destruct (_ && _); [done|].
  destruct (move E _ _) as [[g1 result]|]; [|done]. simpl.
  repeat split; try done.
  - destruct (mr_captured result), (bool_decide _); done.
  - intros _. exists g1, result. split; [done|].
    destruct (mr_captured result), (bool_decide _); heap_simpl; done.
Qed.



(** A position that is not drawn shows no reason. *)
Lemma drawReason_not_drawn g : isDraw E g = false -> drawReason g = "".
Proof. intros Hdraw. unfold drawReason. by rewrite Hdraw. Qed.

(** C10. With a code entered, [joinRoom] emits [join_room] and stores the
    code as [roomId] at once, and changes nothing else; with no code it
    does nothing.  An [error] from the relay then leaves the code in
    [roomId], and in an online game the next [connect] asks to join that
    room again. *)
Theorem joinRoom_records_code s :
  (joinRoomId s = "" -> joinRoom s = s)
  /\ (joinRoomId s <> "" ->
      let s1 := joinRoom s in
      roomId s1 = joinRoomId s
      /\ outbox s1 = (outbox s ++ [emit_join_room (joinRoomId s)])%list
      /\ (view s1, gameMode s1, difficulty s1, game s1, fen s1, captured s1)
         = (view s, gameMode s, difficulty s, game s, fen s, captured s)
      /\ (playerColor s1, isOnlineGameStarted s1, joinRoomId s1, error s1, copied s1,
          isBotThinking s1)
         = (playerColor s, isOnlineGameStarted s, joinRoomId s, error s, copied s,
            isBotThinking s)
      /\ (heap s1, next_ref s1, socket s1, socket_id s1, timers s1, copy_timers s1,
          clipboard s1, console s1, sounds s1)
         = (heap s, next_ref s, socket s, socket_id s, timers s, copy_timers s,
            clipboard s, console s, sounds s)
      /\ (forall msg,
            roomId (step getBestMove s1 (recv_error msg)) = joinRoomId s
            /\ error (step getBestMove s1 (recv_error msg)) = msg
            /\ (gameMode s = online ->
                outbox (handleConnect (step getBestMove s1 (recv_error msg)))
                = (outbox s ++ [emit_join_room (joinRoomId s);
                               emit_join_room (joinRoomId s)])%list))).
Proof.
  unfold joinRoom. split; intros Hcode.
  - by rewrite (proj2 (truthy_false _) Hcode).
  - rewrite (proj2 (truthy_true _) Hcode). simpl.
    repeat split; try done.
    + unfold step, render, botEffect; simpl. by destruct (_ && _), (bot_deps_changed _ _ _).
    + unfold step, render, botEffect; simpl. by destruct (_ && _), (bot_deps_changed _ _ _).
    + intros Honline. unfold step, render, botEffect, handleConnect; simpl.
      rewrite Honline. simpl.
      destruct (bot_deps_changed _ _ _); simpl;
        rewrite (proj2 (truthy_true _) Hcode); simpl;
        rewrite Honline; simpl; by rewrite <- app_assoc.
Qed.

(** Outside games against the bot the bot effect does nothing. *)
Lemma botEffect_only_against_bot s : gameMode s <> bot -> botEffect s = s.
Proof.
  intros Hmode. unfold botEffect.
  by rewrite (bool_decide_eq_false_2 _ Hmode).
Qed.

(** While [isBotThinking] is set the bot effect does nothing. *)
Lemma botEffect_ignored_while_thinking s :
  isBotThinking s = true -> botEffect s = s.
Proof.
  intros Hflag. unfold botEffect. rewrite Hflag.
  by rewrite andb_false_r.
Qed.

(** When the selector returns no move the callback only clears the flag. *)
Lemma botCallback_without_move t s :
  getBestMove (deref s (bt_game t)) (bt_difficulty t) = None ->
  botCallback getBestMove t s = setBotThinking E false s.
Proof. intros Hnone. unfold botCallback. by rewrite Hnone. Qed.

(** X17. A capture made through [makeMove] is appended to the sequence of
    the capturing side, and the other sequence is left alone. *)
Lemma makeMove_appends_capture c mv s g1 result t :
  (mm_gameMode c = online -> turn E (deref s (mm_game c)) = mm_playerColor c) ->
  move E (deref s (mm_game c)) (ObjMove mv) = Some (g1, result) ->
  mr_captured result = Some t ->
  let l := captured (snd (makeMove c mv s)) in
  ledger_get l (mr_color result)
    = (ledger_get (captured s) (mr_color result)
       ++ [{| cp_type := t; cp_color := opposite (mr_color result) |}])%list
  /\ ledger_get l (opposite (mr_color result))
     = ledger_get (captured s) (opposite (mr_color result)).
Proof.
  intros Hturn Hmove Hcap. unfold makeMove.
  destruct (bool_decide (mm_gameMode c = online)) eqn:Hmode; simpl.
  - apply bool_decide_eq_true_1 in Hmode.
    rewrite (bool_decide_eq_true_2 _ (Hturn Hmode)). simpl.
    rewrite Hmove, Hcap. simpl. by destruct (mr_color result).
  - rewrite Hmove, Hcap. simpl. by destruct (mr_color result).
Qed.

(** A capture by the bot that gives check is not entered: the callback
    takes the [inCheck] arm and never reaches [setCaptured]. *)
Lemma botCallback_check_skips_ledger t s san g2 result :
  getBestMove (deref s (bt_game t)) (bt_difficulty t) = Some san ->
  truthy san = true ->
  move E (deref s (mm_game (bt_makeMove t)))
    (ObjMove {| from := ""; to := ""; promotion := Some "" |}) = None ->
  move E (deref s (bt_game t)) (SanMove san) = Some (g2, result) ->
  isGameOver E g2 = false ->
  inCheck E g2 = true ->
  captured (botCallback getBestMove t s) = captured s.
Proof.
  intros Hbest Htruthy Hbogus Hmove Hover Hcheck. unfold botCallback, makeMove.
  rewrite Hbest, Htruthy, Hbogus.
  destruct (_ && _); simpl; by rewrite Hmove, Hover, Hcheck.
Qed.

(** The [move_received] handler never writes the ledger. *)
Lemma move_received_keeps_ledger mv newFen s :
  captured (on_move_received mv newFen s) = captured s.
Proof.
  unfold on_move_received, move_received_catch.
  destruct (move E _ _) as [[g1 result]|].
  - destruct (negb _); simpl; [|done].
    destruct (load E g1 newFen); simpl; [done|].
    by destruct (load E g1 newFen).
  - by destruct (load E _ _).
Qed.

(** C8, as the code has it.  Returning to the menu from an online game
    closes the socket and clears the room, so that no event of the relay
    is delivered afterwards and the bot effect sets no new timer; the
    position, the ledger and the pending timers of both kinds are left as
    they are, and a pending bot timer can still fire. *)
Theorem returnToMenu_online s :
  gameMode s = online ->
  let s1 := returnToMenu s in
  socket s1 = sock_closed
  /\ view s1 = menu /\ roomId s1 = "" /\ isOnlineGameStarted s1 = false
  /\ joinRoomId s1 = "" /\ error s1 = ""
  /\ (forall e, from_relay e = true -> enabled s1 e = false)
  /\ (gameMode s1, game s1, heap s1, fen s1, captured s1, playerColor s1, isBotThinking s1)
     = (gameMode s, game s, heap s, fen s, captured s, playerColor s, isBotThinking s)
  /\ timers s1 = timers s
  /\ (copied s1, copy_timers s1) = (copied s, copy_timers s)
  /\ botEffect s1 = s1
  /\ enabled s1 timer_fires = negb (bool_decide (timers s = [])).
Proof.
  intros Honline. unfold returnToMenu. rewrite Honline. simpl.
  repeat split.
  - intros e He. by destruct e.
  - by rewrite Honline.
  - apply botEffect_only_against_bot. simpl. by rewrite Honline.
Qed.

End Handlers.


(** * Reachable states and what the handlers leave alone *)

Section Coverage.

Context (E : ChessJs).
Context (getBestMove : Game E -> Difficulty -> option string).

Implicit Types (s : App E) (g : Game E) (mv : Move) (c : MakeMoveClosure)
  (t : BotTimer) (e : Event).

(** Conditions of the code as propositions. *)
Ltac bools :=
  repeat match goal with
  | H : _ && _ = true |- _ => apply andb_true_iff in H; destruct H
  | H : negb _ = true |- _ => apply negb_true_iff in H
  | H : negb _ = false |- _ => apply negb_false_iff in H
  | H : bool_decide _ = true |- _ => apply bool_decide_eq_true in H
  | H : bool_decide _ = false |- _ => apply bool_decide_eq_false in H
  end.

Ltac simple_handlers :=
  unfold startGame, resetGame, alloc, returnToMenu, createRoom, joinRoom, copyRoomId,
    handleConnect, on_room_created, on_game_start, on_error in *.

Lemma steps_invariant (P : App E -> Prop) :
  (forall s e, P s -> enabled s e = true -> P (step getBestMove s e)) ->
  forall es s, P s -> possible getBestMove s es = true -> P (steps getBestMove s es).
Proof.
  intros Hstep es. induction es as [|e es IH]; intros s HP Hposs; simpl in *; [done|].
  destruct (enabled s e) eqn:He; [|done].
  apply IH; [by apply Hstep|done].
Qed.

Lemma reachable_invariant (P : App E -> Prop) :
  P (initial E) ->
  (forall s e, P s -> enabled s e = true -> P (step getBestMove s e)) ->
  forall s, reachable getBestMove s -> P s.
Proof.
  intros H0 Hstep s (es & Hposs & <-). by apply steps_invariant.
Qed.

(** ** Frames *)

Lemma makeMove_keeps c mv s : keeps_session s (snd (makeMove c mv s)).
Proof.
  unfold makeMove, keeps_session.
  repeat case_match; simpl; repeat split; reflexivity.
Qed.

Lemma botCallback_keeps t s : keeps_session s (botCallback getBestMove t s).
Proof.
  unfold botCallback.
  pose proof (makeMove_keeps (bt_makeMove t)
                {| from := ""; to := ""; promotion := Some "" |} s) as H.
  unfold keeps_session in *.
  destruct H as (?&?&?&?&?&?&?&?&?&?&?&?&?&?&?&?).
  repeat case_match; simpl; repeat split; done.
Qed.

Lemma on_move_received_keeps mv newFen s :
  keeps_session s (on_move_received mv newFen s).
Proof.
  unfold on_move_received, move_received_catch, keeps_session.
  repeat case_match; simpl; repeat split; reflexivity.
Qed.

(** A render leaves the state alone or, against the bot with the flag
    clear, sets the flag and one timer on the current game. *)
Lemma render_cases a b :
  render a b = b
  \/ (gameMode b = bot /\ isBotThinking b = false
      /\ render a b
         = setTimers E (timers b ++ [{| bt_game := game b; bt_difficulty := difficulty b;
                                       bt_makeMove := current_makeMove b |}])%list
             (setBotThinking E true b)).
Proof.
  unfold render, botEffect.
  destruct (bot_deps_changed _ _ _); [|by left].
  destruct (bool_decide (gameMode b = bot)) eqn:Hm; simpl; [|by left].
  destruct (isGameOver E _); simpl; [by left|].
  destruct (bool_decide (turn E _ = cb)); simpl; [|by left].
  destruct (isBotThinking b) eqn:Hf; simpl; [by left|].
  apply bool_decide_eq_true in Hm. by right.
Qed.

(** Replaces the result of a move by a state that agrees with the old one
    on the session cells. *)
Ltac frames :=
  repeat match goal with
  | |- context [snd (makeMove ?c ?m ?s)] =>
      let H := fresh in
      pose proof (makeMove_keeps c m s) as H; unfold keeps_session in H;
      destruct H as (?&?&?&?&?&?&?&?&?&?&?&?&?&?&?&?);
      generalize dependent (snd (makeMove c m s)); intros
  | |- context [botCallback getBestMove ?t ?s] =>
      let H := fresh in
      pose proof (botCallback_keeps t s) as H; unfold keeps_session in H;
      destruct H as (?&?&?&?&?&?&?&?&?&?&?&?&?&?&?&?);
      generalize dependent (botCallback getBestMove t s); intros
  | |- context [on_move_received ?m ?f ?s] =>
      let H := fresh in
      pose proof (on_move_received_keeps m f s) as H; unfold keeps_session in H;
      destruct H as (?&?&?&?&?&?&?&?&?&?&?&?&?&?&?&?);
      generalize dependent (on_move_received m f s); intros
  end.

(** Rewrites with the equations that [frames] leaves. *)
Ltac rewrite_frames :=
  repeat match goal with
  | H : ?f ?a = ?f ?b |- _ => rewrite H in *; clear H
  end.

(** X3. A move changes none of the session cells, whether it comes from
    the board, from the bot's timer or from the relay: view, mode,
    difficulty, current game object, room, colour, socket and timers stay
    as they were. *)
Theorem moves_keep_session c mv t newFen s :
  keeps_session s (snd (makeMove c mv s))
  /\ keeps_session s (botCallback getBestMove t s)
  /\ keeps_session s (on_move_received mv newFen s).
Proof.
  split; [apply makeMove_keeps|].
  split; [apply botCallback_keeps|apply on_move_received_keeps].
Qed.

(** ** The board in an online game *)

Lemma online_board_step s e :
  (gameMode s = online -> view s = game_view -> isOnlineGameStarted s = true) ->
  enabled s e = true ->
  gameMode (step getBestMove s e) = online ->
  view (step getBestMove s e) = game_view ->
  isOnlineGameStarted (step getBestMove s e) = true.
Proof.
  unfold step. intros Hinv Hen.
  destruct (render_cases s (handle getBestMove e s)) as [-> | (Hbot & _ & ->)];
    [|simpl; congruence].
  destruct e; simpl in *; repeat case_match; frames; simple_handlers;
    simpl in *; repeat case_match; simpl in *; bools;
    try congruence; try (intuition congruence);
    rewrite_frames; intuition congruence.
Qed.

(** X1. In an online game the board is on screen only after [game_start]:
    in every reachable state with [gameMode = online] and the game view,
    [isOnlineGameStarted] is set. *)
Theorem online_board_only_after_start s :
  reachable getBestMove s ->
  gameMode s = online -> view s = game_view -> isOnlineGameStarted s = true.
Proof.
  intros Hr. pattern s. revert s Hr. apply reachable_invariant.
  - simpl. discriminate.
  - intros s e. apply online_board_step.
Qed.

(** ** Pending timers *)

Lemma refs_ok_step s e : refs_ok s -> refs_ok (step getBestMove s e).
Proof.
  unfold step, refs_ok. intros [Hgame Htimers].
  assert (Hhandle : (game (handle getBestMove e s) < next_ref (handle getBestMove e s))%nat
                    /\ Forall (timer_ok (handle getBestMove e s))
                         (timers (handle getBestMove e s))).
  { assert (Hmono : forall s', (next_ref s <= next_ref s')%nat ->
                      Forall (timer_ok s') (timers s)).
    { intros s' Hle. eapply Forall_impl; [exact Htimers|].
      intros t (? & ? & ?). unfold timer_ok. repeat split; try done. lia. }
    destruct e; simpl; repeat case_match; frames; simple_handlers;
      simpl in *; repeat case_match; simpl in *;
      repeat match goal with H : ?x = _ |- context [?x] => rewrite H end;
      try (split; [lia | apply Hmono; simpl; lia]);
      try (split; [lia | done]).
    all: subst; apply Forall_cons in Htimers as [? Hrest]; split; [lia|].
    all: eapply Forall_impl; [exact Hrest|].
    all: intros t' (? & ? & ?); unfold timer_ok; repeat split; try done; lia. }
  destruct Hhandle as [Hg Ht].
  destruct (render_cases s (handle getBestMove e s)) as [-> | (Hbot & _ & ->)]; [done|].
  simpl. split; [done|].
  apply Forall_app. split.
  - eapply Forall_impl; [exact Ht|]. by intros t' (? & ? & ?).
  - apply Forall_singleton. by repeat split.
Qed.

Lemma refs_ok_reachable s : reachable getBestMove s -> refs_ok s.
Proof.
  intros Hr. pattern s. revert s Hr. apply reachable_invariant.
  - split; [simpl; lia|constructor].
  - intros s e H _. by apply refs_ok_step.
Qed.

(** ** Messages to the relay *)

Lemma makeMove_offline_outbox c mv s :
  mm_gameMode c <> online -> outbox (snd (makeMove c mv s)) = outbox s.
Proof.
  intros Hmode. unfold makeMove.
  rewrite (bool_decide_eq_false_2 _ Hmode). simpl.
  by repeat case_match.
Qed.

Lemma botCallback_offline_outbox t s :
  mm_gameMode (bt_makeMove t) <> online ->
  outbox (botCallback getBestMove t s) = outbox s.
Proof.
  intros Hmode. unfold botCallback.
  pose proof (makeMove_offline_outbox (bt_makeMove t)
                {| from := ""; to := ""; promotion := Some "" |} s Hmode) as H.
  repeat case_match; simpl; done.
Qed.

Lemma on_move_received_outbox mv newFen s :
  outbox (on_move_received mv newFen s) = outbox s.
Proof.
  unfold on_move_received, move_received_catch. by repeat case_match.
Qed.

Lemma render_outbox (a b : App E) : outbox (render a b) = outbox b.
Proof. by destruct (render_cases a b) as [-> | (_ & _ & ->)]. Qed.

(** X2. Only four things send to the relay: [createRoom], [joinRoom], the
    [connect] handler, and a board move in an online game.  No other
    event of a reachable state adds a message: not a board move in a game
    against a friend or the bot, not the bot's timer, not a move received
    (it is never echoed), not [Reset Game]. *)
Theorem relay_messages_only_from s e :
  reachable getBestMove s ->
  may_emit s e = false ->
  outbox (step getBestMove s e) = outbox s.
Proof.
  intros Hr Hquiet. apply refs_ok_reachable in Hr as [_ Htimers].
  unfold step. rewrite render_outbox.
  destruct e; simpl in *; try done;
    try (simple_handlers; simpl; by repeat case_match).
  - apply bool_decide_eq_false in Hquiet. by apply makeMove_offline_outbox.
  - destruct (timers s) as [|t rest]; [done|].
    apply Forall_cons in Htimers as [(_ & _ & Hbot) _].
    rewrite botCallback_offline_outbox; [done|congruence].
  - apply on_move_received_outbox.
Qed.

(** ** The bot effect and its callback *)

(** X4. The bot effect run twice in a row does what it does once: the
    first run sets [isBotThinking], so the second sets no timer.  One run
    adds at most one timer, and only against the bot, with Black to move,
    the game not over and the flag clear. *)
Theorem botEffect_idempotent s :
  botEffect (botEffect s) = botEffect s
  /\ (length (timers (botEffect s)) <= S (length (timers s)))%nat
  /\ (timers (botEffect s) <> timers s ->
      gameMode s = bot /\ turn E (deref s (game s)) = cb
      /\ isGameOver E (deref s (game s)) = false /\ isBotThinking s = false).
Proof.
  unfold botEffect.
  destruct (bool_decide (gameMode s = bot) && negb (isGameOver E (deref s (game s)))
            && bool_decide (turn E (deref s (game s)) = cb) && negb (isBotThinking s))
    eqn:Hcond.
  - simpl. rewrite andb_false_r. split; [done|]. split.
    + rewrite length_app. simpl. lia.
    + intros _. bools. done.
  - rewrite Hcond. split; [done|]. split; [lia|done].
Qed.

Lemma makeMove_heap_frame c mv s r :
  r <> mm_game c -> heap (snd (makeMove c mv s)) !! r = heap s !! r.
Proof.
  intros Hne. unfold makeMove.
  repeat case_match; simpl; try done; by rewrite lookup_insert_ne.
Qed.

Lemma botCallback_heap_frame t s r :
  r <> bt_game t -> r <> mm_game (bt_makeMove t) ->
  heap (botCallback getBestMove t s) !! r = heap s !! r.
Proof.
  intros Hne Hne'. unfold botCallback.
  pose proof (makeMove_heap_frame (bt_makeMove t)
                {| from := ""; to := ""; promotion := Some "" |} s r Hne') as H.
  repeat case_match; simpl; try done; by rewrite lookup_insert_ne.
Qed.

(** X5. The bot's callback writes only the [Chess] objects it captured
    when the timer was set: every other object is as before, and so is
    the position of the current game when that is another object. *)
Theorem botCallback_writes_captured_objects_only t s r :
  r <> bt_game t -> r <> mm_game (bt_makeMove t) ->
  heap (botCallback getBestMove t s) !! r = heap s !! r
  /\ deref (botCallback getBestMove t s) r = deref s r
  /\ game (botCallback getBestMove t s) = game s.
Proof.
  intros Hne Hne'. split; [by apply botCallback_heap_frame|].
  split.
  - unfold deref. by rewrite botCallback_heap_frame.
  - by destruct (botCallback_keeps t s) as (_ & _ & _ & ? & _).
Qed.

(** X6. [Reset Game] makes a new object and leaves the pending timers
    pending, each still holding an object of before: in a reachable
    state, after the click the current game is a fresh reference, every
    timer that was pending is pending and holds another object, and when
    such a timer fires later the position of the new game is not
    changed by it. *)
Theorem reset_orphans_pending_timers s :
  reachable getBestMove s ->
  let s' := step getBestMove s click_resetGame in
  game s' = next_ref s
  /\ game s' <> game s
  /\ deref s' (game s') = newChess E
  /\ (forall t, t ∈ timers s ->
        t ∈ timers s' /\ bt_game t <> game s'
        /\ forall s2, deref (botCallback getBestMove t s2) (game s') = deref s2 (game s')).
Proof.
  intros Hr s'. apply refs_ok_reachable in Hr as [Hgame Htimers].
  assert (Hg : game s' = next_ref s).
  { subst s'. unfold step.
    by destruct (render_cases s (handle getBestMove click_resetGame s))
      as [-> | (_ & _ & ->)]. }
  split; [done|]. split; [lia|]. split.
  { rewrite Hg. subst s'. unfold step.
    destruct (render_cases s (handle getBestMove click_resetGame s))
      as [-> | (_ & _ & ->)]; unfold deref; simpl; by rewrite lookup_insert_eq. }
  intros t Ht. rewrite Forall_forall in Htimers.
  destruct (Htimers t Ht) as (Hlt & Hsame & _).
  split; [|split].
  - subst s'. unfold step.
    destruct (render_cases s (handle getBestMove click_resetGame s))
      as [-> | (_ & _ & ->)]; simpl; [done|].
    apply elem_of_app. by left.
  - rewrite Hg. lia.
  - intros s2. unfold deref. rewrite botCallback_heap_frame; [done| |]; rewrite Hg; lia.
Qed.

Lemma bot_deps_unchanged (a b : App E) :
  fen b = fen a -> gameMode b = gameMode a -> difficulty b = difficulty a ->
  game b = game a -> playerColor b = playerColor a -> roomId b = roomId a ->
  bot_deps_changed E a b = false.
Proof.
  intros H1 H2 H3 H4 H5 H6. unfold bot_deps_changed.
  rewrite H1, H2, H3, H4, H5, H6.
  rewrite !String.eqb_refl, !bool_decide_eq_true_2 by done. done.
Qed.

(** X7. When the rules engine rejects the move the selector chose, the
    callback ends by the exception before anything is written: the whole
    state is as before except that the timer is gone.  [isBotThinking]
    is not cleared, so if it was set the bot effect sets no further
    timer. *)
Theorem rejected_bot_move_leaves_flag_set s t rest san :
  timers s = t :: rest ->
  getBestMove (deref s (bt_game t)) (bt_difficulty t) = Some san ->
  truthy san = true ->
  move E (deref s (mm_game (bt_makeMove t)))
    (ObjMove {| from := ""; to := ""; promotion := Some "" |}) = None ->
  move E (deref s (bt_game t)) (SanMove san) = None ->
  step getBestMove s timer_fires = setTimers E rest s
  /\ (isBotThinking s = true ->
      botEffect (step getBestMove s timer_fires) = step getBestMove s timer_fires).
Proof.
  intros Htimers Hbest Htruthy Hbogus Hmove.
  assert (Hcb : botCallback getBestMove t (setTimers E rest s) = setTimers E rest s).
  { unfold botCallback, makeMove, deref in *. simpl.
    rewrite Hbest, Htruthy, Hbogus. destruct (_ && _); simpl; by rewrite Hmove. }
  assert (Hstep : step getBestMove s timer_fires = setTimers E rest s).
  { unfold step. simpl. rewrite Htimers, Hcb. unfold render.
    by rewrite bot_deps_unchanged. }
  split; [done|].
  intros Hflag. rewrite Hstep. unfold botEffect. simpl.
  by rewrite Hflag, andb_false_r.
Qed.

(** X18. When the selector's move is accepted (and the history then has
    a last move), the callback leaves exactly that move played on the
    object it captured, shows its FEN, clears [isBotThinking] and sends
    nothing. *)
Theorem bot_callback_applies_selected_move s t san g2 result lastMove :
  mm_gameMode (bt_makeMove t) <> online ->
  getBestMove (deref s (bt_game t)) (bt_difficulty t) = Some san ->
  truthy san = true ->
  move E (deref s (mm_game (bt_makeMove t)))
    (ObjMove {| from := ""; to := ""; promotion := Some "" |}) = None ->
  move E (deref s (bt_game t)) (SanMove san) = Some (g2, result) ->
  last (history E g2) = Some lastMove ->
  let s' := botCallback getBestMove t s in
  deref s' (bt_game t) = g2
  /\ fen s' = fen_of E g2
  /\ isBotThinking s' = false
  /\ outbox s' = outbox s.
Proof.
  intros Hmode Hbest Htruthy Hbogus Hmove Hlast s'. subst s'.
  split; [|split; [|split]]; [| | |by apply botCallback_offline_outbox].
  all: unfold botCallback, makeMove; rewrite Hbest, Htruthy, Hbogus.
  all: destruct (_ && _); simpl; rewrite Hmove, Hlast.
  all: repeat case_match; simpl; try done.
  all: unfold deref; simpl; by rewrite lookup_insert_eq.
Qed.

(** ** [game_start] *)

(** X8. [game_start] always shows the board and sets
    [isOnlineGameStarted]; the colour is Black when the socket id is the
    black id, else White when it is the white id, else it stays.  A
    snapshot that the engine loads replaces the position of the current
    object and is shown; with no snapshot, an empty one, or one that
    [load] rejects, position and [fen] stay.  The ledger is never rebuilt
    and nothing is sent. *)
Theorem game_start_effects white black serverFen s :
  let s' := on_game_start white black serverFen s in
  view s' = game_view /\ isOnlineGameStarted s' = true
  /\ game s' = game s /\ captured s' = captured s /\ outbox s' = outbox s
  /\ (socket_id s = black -> playerColor s' = cb)
  /\ (socket_id s <> black -> socket_id s = white -> playerColor s' = cw)
  /\ (socket_id s <> black -> socket_id s <> white -> playerColor s' = playerColor s)
  /\ (forall f g1, serverFen = Some f -> f <> "" ->
        load E (deref s (game s)) f = Some g1 ->
        deref s' (game s) = g1 /\ fen s' = f)
  /\ ((serverFen = None \/ serverFen = Some ""
       \/ exists f, serverFen = Some f /\ load E (deref s (game s)) f = None) ->
      heap s' = heap s /\ fen s' = fen s).
Proof.
  intros s'. subst s'. unfold on_game_start, deref, truthy. simpl.
  assert (Hcases :
    serverFen = None \/ serverFen = Some ""
    \/ (exists f, serverFen = Some f /\ f <> ""
                  /\ load E (default (newChess E) (heap s !! game s)) f = None)
    \/ (exists f g1, serverFen = Some f /\ f <> ""
                     /\ load E (default (newChess E) (heap s !! game s)) f = Some g1)).
  { destruct serverFen as [f|]; [|by left].
    destruct (String.eqb_spec f "") as [->|Hf]; [by right; left|].
    destruct (load E (default (newChess E) (heap s !! game s)) f) as [g1|] eqn:Hload;
      [|by right; right; left; exists f].
    right; right; right. by exists f, g1. }
  destruct (String.eqb_spec (socket_id s) black) as [Hb|Hb];
    destruct (String.eqb_spec (socket_id s) white) as [Hw|Hw];
    destruct Hcases as [-> | [-> | [(f & -> & Hf & Hload) | (f & g1 & -> & Hf & Hload)]]];
    simpl; rewrite ?(proj2 (String.eqb_neq _ "") Hf); simpl; rewrite ?Hload; simpl.
  all: repeat split; try done; try congruence.
  all: try (simplify_eq; rewrite ?lookup_insert_eq; simpl; congruence).
  all: match goal with H : _ \/ _ |- _ => destruct H as [? | [? | (? & ? & ?)]] end;
    simplify_eq; congruence.
Qed.

(** ** Leaving and reconnecting *)

Lemma render_socket (a b : App E) : socket (render a b) = socket b.
Proof. by destruct (render_cases a b) as [-> | (_ & _ & ->)]. Qed.

(** X9. After [returnToMenu] in online mode the panel with [Create Room]
    and [Join] is on screen again, but the socket is closed and no event
    of that state opens it: a room asked for there goes to a closed
    socket.  (It opens again with [Back] and [Play Online].) *)
Theorem leaving_online_closes_the_panel s :
  gameMode s = online ->
  let s1 := returnToMenu s in
  view s1 = menu /\ panel_join s1 = true
  /\ enabled s1 click_createRoom = true /\ enabled s1 click_joinRoom = true
  /\ (forall e, enabled s1 e = true -> socket (step getBestMove s1 e) = sock_closed).
Proof.
  intros Honline s1.
  assert (Hs1 : view s1 = menu /\ socket s1 = sock_closed /\ panel_join s1 = true).
  { subst s1. unfold returnToMenu, panel_join, truthy. rewrite Honline. simpl.
    by rewrite Honline. }
  destruct Hs1 as (Hv & Hsock & Hpanel). clearbody s1.
  split; [done|]. split; [done|].
  split; [unfold enabled; by rewrite Hv, Hpanel|].
  split; [unfold enabled; by rewrite Hv, Hpanel|].
  intros e Hen. unfold step. rewrite render_socket.
  destruct e; simpl in *; rewrite ?Hpanel, ?Hv, ?Hsock in Hen; simpl in *; try done;
    repeat case_match; frames; simple_handlers; simpl in *; repeat case_match;
    simpl in *; rewrite_frames; simpl in *; try done; bools; congruence.
Qed.

Lemma render_console (a b : App E) : console (render a b) = console b.
Proof. by destruct (render_cases a b) as [-> | (_ & _ & ->)]. Qed.

(** X14. When the transport drops and comes back during an online game
    with a room, the [connect] handler logs it and asks to join the same
    room again, under the new socket id; once the session was left
    through [returnToMenu] the room is forgotten and a [connect] asks for
    nothing. *)
Theorem reconnect_rejoins_room s id :
  gameMode s = online -> roomId s <> "" ->
  (let s' := steps getBestMove s [socket_drop; socket_connect id] in
   outbox s' = (outbox s ++ [emit_join_room (roomId s)])%list
   /\ console s' = (console s ++ [log_reconnecting (roomId s)])%list
   /\ socket s' = sock_connected /\ socket_id s' = id /\ roomId s' = roomId s)
  /\ (socket s = sock_connected ->
      possible getBestMove s [socket_drop; socket_connect id] = true)
  /\ outbox (step getBestMove (returnToMenu s) (socket_connect id)) = outbox s.
Proof.
  intros Honline Hroom. split.
  - intros s'. subst s'. unfold steps. simpl.
    set (s1 := step getBestMove s socket_drop).
    assert (H1 : outbox s1 = outbox s /\ console s1 = console s /\ roomId s1 = roomId s
                 /\ gameMode s1 = gameMode s).
    { subst s1. unfold step.
      by destruct (render_cases s (handle getBestMove socket_drop s))
        as [-> | (_ & _ & ->)]. }
    destruct H1 as (Ho & Hc & Hr & Hm). clearbody s1.
    unfold step.
    destruct (render_cases s1 (handle getBestMove (socket_connect id) s1))
      as [-> | (_ & _ & ->)]; simpl; unfold handleConnect; simpl;
      rewrite Hr, Hm, Honline, (proj2 (truthy_true _) Hroom); simpl;
      by rewrite Ho, Hc.
  - split.
    + intros Hsock.
      assert (H1 : enabled s socket_drop = true) by (simpl; by rewrite Hsock).
      assert (H2 : enabled (step getBestMove s socket_drop) (socket_connect id) = true).
      { unfold enabled, step. by rewrite render_socket. }
      cbn [possible]. by rewrite H1, H2.
    + unfold step. rewrite render_outbox. simpl.
      unfold handleConnect, returnToMenu. rewrite Honline. simpl. done.
Qed.

(** ** The join code and the copy button *)

Lemma upper_ascii_not_lower (a : ascii) : is_lower (upper_ascii a) = false.
Proof.
  unfold upper_ascii, is_lower.
  destruct ((97 <=? nat_of_ascii a)%nat && (nat_of_ascii a <=? 122)%nat) eqn:Hlow;
    [|done].
  apply andb_true_iff in Hlow as [H1 H2].
  apply Nat.leb_le in H1, H2.
  rewrite nat_ascii_embedding by lia.
  apply andb_false_iff. left. apply Nat.leb_gt. lia.
Qed.

Lemma toUpperCase_no_lower x : no_lower (toUpperCase x) = true.
Proof.
  induction x as [|a r IH]; simpl; [done|].
  by rewrite upper_ascii_not_lower, IH.
Qed.

Lemma join_code_step s e :
  no_lower (joinRoomId s) = true -> no_lower (joinRoomId (step getBestMove s e)) = true.
Proof.
  intros Hinv. unfold step.
  destruct (render_cases s (handle getBestMove e s)) as [-> | (_ & _ & ->)]; simpl.
  all: destruct e; simpl in *; try done; try apply toUpperCase_no_lower;
    repeat case_match; frames; simple_handlers; simpl in *; repeat case_match;
    simpl in *; rewrite_frames; simpl in *; done.
Qed.

(** X10. The join code is kept in upper case: in every reachable state
    [joinRoomId] has no letter from [a] to [z], so the [join_room] message
    that [joinRoom] sends has none either. *)
Theorem join_code_is_upper_case s :
  reachable getBestMove s ->
  no_lower (joinRoomId s) = true
  /\ (outbox (step getBestMove s click_joinRoom) = outbox s
      \/ exists code,
           outbox (step getBestMove s click_joinRoom)
           = (outbox s ++ [emit_join_room code])%list
           /\ no_lower code = true).
Proof.
  intros Hr.
  assert (Hcode : no_lower (joinRoomId s) = true).
  { pattern s. revert s Hr. apply reachable_invariant; [done|].
    intros s e H _. by apply join_code_step. }
  split; [done|]. unfold step. rewrite render_outbox. simpl. unfold joinRoom.
  destruct (truthy (joinRoomId s)); [|by left].
  right. by exists (joinRoomId s).
Qed.

Lemma copied_step s e :
  (copied s = true -> copy_timers s <> 0%nat) ->
  copied (step getBestMove s e) = true -> copy_timers (step getBestMove s e) <> 0%nat.
Proof.
  intros Hinv. unfold step.
  destruct (render_cases s (handle getBestMove e s)) as [-> | (_ & _ & ->)]; simpl.
  all: destruct e; simpl in *; try done;
    repeat case_match; frames; simple_handlers; simpl in *; repeat case_match;
    simpl in *; rewrite_frames; simpl in *; try done; try (intros; lia); auto.
Qed.

(** X11. The [Copied] mark is never stuck: in every reachable state in
    which [copied] is set a timer of [copyRoomId] is pending, and when it
    fires [copied] is cleared. *)
Theorem copied_mark_has_timer s :
  reachable getBestMove s ->
  copied s = true ->
  enabled s copied_timer_fires = true
  /\ copied (step getBestMove s copied_timer_fires) = false.
Proof.
  intros Hr Hcopied.
  assert (Hpending : copied s = true -> copy_timers s <> 0%nat).
  { clear Hcopied. pattern s. revert s Hr. apply reachable_invariant; [done|].
    intros s e H _. by apply copied_step. }
  split.
  - simpl. apply negb_true_iff, Nat.eqb_neq. by apply Hpending.
  - unfold step.
    by destruct (render_cases s (handle getBestMove copied_timer_fires s))
      as [-> | (_ & _ & ->)].
Qed.

(** ** The ledger *)

Lemma ledger_push_extends l (side : PieceColor) x :
  ledger_extends l (ledger_push l side x).
Proof.
  unfold ledger_extends. destruct side; simpl; split; try done; by apply prefix_app_r.
Qed.

Lemma ledger_extends_refl l : ledger_extends l l.
Proof. by split. Qed.

Lemma ledger_extends_trans l1 l2 l3 :
  ledger_extends l1 l2 -> ledger_extends l2 l3 -> ledger_extends l1 l3.
Proof. intros [? ?] [? ?]. split; by etrans. Qed.

Lemma makeMove_ledger c mv s :
  ledger_extends (captured s) (captured (snd (makeMove c mv s))).
Proof.
  unfold makeMove.
  repeat case_match; simpl;
    first [apply ledger_extends_refl | apply ledger_push_extends].
Qed.

Lemma botCallback_ledger t s :
  ledger_extends (captured s) (captured (botCallback getBestMove t s)).
Proof.
  unfold botCallback.
  pose proof (makeMove_ledger (bt_makeMove t)
                {| from := ""; to := ""; promotion := Some "" |} s) as H.
  repeat case_match; simpl; try done; try apply ledger_extends_refl.
  eapply ledger_extends_trans; [exact H|]. apply ledger_push_extends.
Qed.

(** X12. Nothing takes a piece out of the ledger or changes the order:
    after any event the ledger is either empty again (a new game) or each
    of its two sequences begins with the sequence of before. *)
Theorem ledger_grows_or_resets s e :
  captured (step getBestMove s e) = empty_ledger
  \/ ledger_extends (captured s) (captured (step getBestMove s e)).
Proof.
  unfold step.
  assert (Hr : captured (render s (handle getBestMove e s))
               = captured (handle getBestMove e s)).
  { by destruct (render_cases s (handle getBestMove e s)) as [-> | (_ & _ & ->)]. }
  rewrite Hr.
  destruct e; simpl;
    first
    [ right; apply makeMove_ledger
    | right; rewrite move_received_keeps_ledger; apply ledger_extends_refl
    | right; destruct (timers s) as [|t rest];
        [apply ledger_extends_refl | apply (botCallback_ledger t (setTimers E rest s))]
    | left; simple_handlers; simpl; by repeat case_match
    | right; simple_handlers; simpl; repeat case_match; simpl;
        apply ledger_extends_refl ].
Qed.

(** ** The status line and the way back to the board *)

(** X15. The status line and the turn guard agree: whenever the line
    reads [Opponent's Turn], every move on the board is refused and
    changes nothing; and it reads [Your Turn] only in an online game in
    which the side to move is the player's colour. *)
Theorem status_text_matches_turn_guard s :
  (statusText s = "Opponent's Turn" ->
     forall mv, makeMove (current_makeMove s) mv s = (false, s))
  /\ (statusText s = "Your Turn" ->
      gameMode s = online /\ turn E (deref s (game s)) = playerColor s).
Proof.
  unfold statusText, winner, drawReason, makeMove, current_makeMove. simpl.
  destruct (bool_decide (gameMode s = online)) eqn:Hmode;
    destruct (bool_decide (turn E (deref s (game s)) = playerColor s)) eqn:Hturn;
    destruct (isCheckmate E (deref s (game s)));
    destruct (bool_decide (turn E (deref s (game s)) = cw));
    destruct (isDraw E (deref s (game s)));
    destruct (isStalemate E (deref s (game s)));
    destruct (isThreefoldRepetition E (deref s (game s)));
    destruct (isInsufficientMaterial E (deref s (game s)));
    destruct (inCheck E (deref s (game s)));
    simpl; split; try discriminate; try done.
  all: intros _; bools; done.
Qed.


(** X13. The main menu calls [onStartGame] with a difficulty for the bot
    and without one for a friend or an online game, whatever is clicked,
    and [selectedMode] is never anything but [null] or [bot]. *)
Theorem main_menu_calls bs selectedMode calls :
  menu_clicks None bs = Some (selectedMode, calls) ->
  (selectedMode = None \/ selectedMode = Some bot)
  /\ Forall (fun call => start_call_shape (fst call) (snd call) = true) calls
  /\ (forall s,
        view s = menu -> panel_join s = false -> panel_waiting s = false ->
        Forall (fun call => enabled s (click_startGame (fst call) (snd call)) = true)
          calls).
Proof.
  assert (Hgen : forall bs sel sel' calls,
    (sel = None \/ sel = Some bot) ->
    menu_clicks sel bs = Some (sel', calls) ->
    (sel' = None \/ sel' = Some bot)
    /\ Forall (fun call => start_call_shape (fst call) (snd call) = true) calls).
  { clear. induction bs as [|b rest IH]; intros sel sel' calls Hsel Hrun; simpl in Hrun.
    - injection Hrun as <- <-. by split.
    - destruct (menu_shows sel b); [|done].
      destruct (menu_click sel b) as [sel1 call] eqn:Hclick.
      destruct (menu_clicks sel1 rest) as [[sel2 calls2]|] eqn:Hrest; [|done].
      injection Hrun as <- <-.
      assert (Hsel1 : sel1 = None \/ sel1 = Some bot).
      { destruct b; simpl in Hclick; injection Hclick as <- <-; auto. }
      destruct (IH _ _ _ Hsel1 Hrest) as [H1 H2]. split; [done|].
      destruct b; simpl in Hclick; injection Hclick as <- <-; try done;
        by constructor. }
  assert (Hshape : forall s mode diff,
            view s = menu -> panel_join s = false -> panel_waiting s = false ->
            start_call_shape mode diff = true ->
            enabled s (click_startGame mode diff) = true).
  { intros s mode diff Hv Hj Hw Hs. simpl. rewrite Hv, Hj, Hw. simpl.
    by destruct mode, diff. }
  intros Hrun. destruct (Hgen bs None selectedMode calls) as [H1 H2]; [by left|done|].
  split; [done|]. split; [done|].
  intros s Hv Hj Hw. eapply Forall_impl; [exact H2|].
  intros [mode diff] Hcall. by apply Hshape.
Qed.

(** X19. The panel that waits for the opponent comes up for the one who
    creates the room, when [room_created] arrives, and as well for the
    one who joins, as soon as [Join] is clicked with a code: in both
    cases [Cancel] and the copy button are offered and the main menu is
    not.  The creator is White. *)
Theorem waiting_panel_for_both_peers s id :
  gameMode s = online -> isOnlineGameStarted s = false -> view s = menu ->
  (id <> "" ->
     let s' := step getBestMove s (recv_room_created id) in
     panel_waiting s' = true /\ panel_join s' = false /\ playerColor s' = cw
     /\ roomId s' = id
     /\ enabled s' click_returnToMenu = true /\ enabled s' click_copyRoomId = true
     /\ forall mode diff, enabled s' (click_startGame mode diff) = false)
  /\ (joinRoomId s <> "" ->
      let s' := step getBestMove s click_joinRoom in
      panel_waiting s' = true /\ panel_join s' = false
      /\ playerColor s' = playerColor s /\ roomId s' = joinRoomId s
      /\ enabled s' click_returnToMenu = true /\ enabled s' click_copyRoomId = true
      /\ forall mode diff, enabled s' (click_startGame mode diff) = false).
Proof.
  intros Honline Hstarted Hmenu.
  assert (Hpanel : forall s' code,
            code <> "" -> roomId s' = code -> gameMode s' = online ->
            isOnlineGameStarted s' = false -> view s' = menu ->
            panel_waiting s' = true /\ panel_join s' = false
            /\ enabled s' click_returnToMenu = true
            /\ enabled s' click_copyRoomId = true
            /\ forall mode diff, enabled s' (click_startGame mode diff) = false).
  { intros s' code Hcode Hroom Hm Hs Hv.
    assert (Hw : panel_waiting s' = true).
    { unfold panel_waiting.
      by rewrite Hroom, (proj2 (truthy_true _) Hcode), Hs, Hm. }
    assert (Hj : panel_join s' = false).
    { unfold panel_join. by rewrite Hroom, (proj2 (truthy_true _) Hcode). }
    split; [done|]. split; [done|].
    unfold enabled. rewrite Hv, Hw, Hj. simpl. done. }
  assert (Hrender : forall b : App E,
            roomId (render s b) = roomId b /\ gameMode (render s b) = gameMode b
            /\ isOnlineGameStarted (render s b) = isOnlineGameStarted b
            /\ view (render s b) = view b /\ playerColor (render s b) = playerColor b).
  { intros b. by destruct (render_cases s b) as [-> | (_ & _ & ->)]. }
  split.
  - intros Hid s'. subst s'. unfold step. simpl handle. unfold on_room_created.
    set (s1 := setPlayerColor E cw (setRoomId E id s)).
    destruct (Hrender s1) as (Hr & Hm & Hs & Hv & Hc). subst s1. simpl in *.
    destruct (Hpanel _ id Hid Hr) as (? & ? & ? & ? & ?); try congruence.
    repeat split; try done; congruence.
  - intros Hcode s'. subst s'. unfold step.
    assert (Hjoin : handle getBestMove click_joinRoom s
                    = setRoomId E (joinRoomId s) (emit E (emit_join_room (joinRoomId s)) s)).
    { simpl. unfold joinRoom. by rewrite (proj2 (truthy_true _) Hcode). }
    rewrite Hjoin.
    set (s1 := setRoomId E (joinRoomId s) (emit E (emit_join_room (joinRoomId s)) s)).
    destruct (Hrender s1) as (Hr & Hm & Hs & Hv & Hc). subst s1. simpl in *.
    destruct (Hpanel _ (joinRoomId s) Hcode Hr) as (? & ? & ? & ? & ?); try congruence.
    repeat split; try done; congruence.
Qed.

(** X20. Each card shows what the other side has taken: the card above
    the board holds the pieces taken by the side the board is oriented
    to, the card below those taken by the other side; the board is
    turned to Black exactly when [isFlipped]. *)
Theorem captured_cards s :
  (orientation s = cb <-> isFlipped s = true)
  /\ topCaptured s = ledger_get (captured s) (orientation s)
  /\ bottomCaptured s = ledger_get (captured s) (opposite (orientation s)).
Proof.
  unfold topCaptured, bottomCaptured, orientation, isFlipped.
  destruct (bool_decide (gameMode s = online)); [destruct (playerColor s)|];
    simpl; (split; [split; intros H; first [discriminate H | reflexivity]|]);
    split; reflexivity.
Qed.

End Coverage.

(** * The handlers on concrete sessions *)

Import Examples.

(** Splits a conjunction of closed facts and evaluates each. *)
Ltac split_conj := repeat match goal with |- _ /\ _ => split end.
Ltac evaluate :=
  split_conj; try match goal with |- _ = _ => vm_compute; reflexivity end.

Lemma mini_move_flips (g : Game E0) a g' result :
  move E0 g a = Some (g', result) -> turn E0 g' = opposite (turn E0 g).
Proof.
  simpl. unfold MiniChess.move. intros Hmove.
  destruct (MiniChess.parse_move a) as [[[i j] promo]|]; simpl in Hmove; [|done].
  destruct (MiniChess.piece_at _ i); simpl in Hmove; [|done].
  destruct (_ && _); [|done].
  by injection Hmove as <- _.
Qed.

Lemma mini_load_fen (g : Game E0) x g' :
  load E0 g x = Some g' -> fen_of E0 g' = x.
Proof.
  simpl. unfold MiniChess.load. intros Hload.
  destruct (MiniChess.parse_fen x) as [p|]; simpl in Hload; [|done].
  destruct (String.eqb_spec (MiniChess.fen_of p) x); congruence.
Qed.

(** A remote move that the local rules reject (Black's [e7e5] while White
    is to move here), declared to lead to the position after 1. e4 e5:
    the handler ends in the declared position. *)
Lemma move_received_reaches_declared_witness :
  let declared := "rnbqkbnr/pppp1ppp/8/4p3/4P3/8/PPPP1PPP/RNBQKBNR w - - 0 2" in
  let s' := on_move_received (mv "e7" "e5") declared (after MiniChess.firstMove online_white) in
  fen_of E0 (deref s' (game s')) = declared /\ fen s' = declared.
Proof.
  intros declared s'.
  assert (Hload : forall g, is_Some (load E0 g declared)).
  { intros g. vm_compute. eexists. reflexivity. }
  pose proof (move_received_reaches_declared E0 (mv "e7" "e5") declared
                (after MiniChess.firstMove online_white) Hload) as (_ & _ & H).
  apply H. intros g g'. apply mini_load_fen.
Defined.

(** The three ways through the handler, for the local side White after
    1. e4: the remote [d7d5] with the FEN that follows it (agreement,
    nothing logged), with the FEN of another position (the declared
    position is loaded, the desync logged), and a remote move that is not
    legal here. *)
Lemma move_received_examples :
  let s := after MiniChess.firstMove (online_white ++ [board_onMove (mv "e2" "e4")])%list in
  let agreed := "rnbqkbnr/ppp1pppp/8/3p4/4P3/8/PPPP1PPP/RNBQKBNR w - - 0 2" in
  let other := "rnbqkbnr/ppp1pppp/3p4/8/4P3/8/PPPP1PPP/RNBQKBNR w - - 0 2" in
  (fen (on_move_received (mv "d7" "d5") agreed s) = agreed
   /\ console (on_move_received (mv "d7" "d5") agreed s) = [])
  /\ (fen (on_move_received (mv "d7" "d5") other s) = other
      /\ console (on_move_received (mv "d7" "d5") other s) = [warn_desync])
  /\ (fen (on_move_received (mv "d7" "d4") other s) = other
      /\ console (on_move_received (mv "d7" "d4") other s) = [error_move_received]).
Proof.
  intros s agreed other. evaluate.
Qed.

(** Four rejected attempts, each leaving everything as it was: a piece
    of the side not to move ([e7e5] at the start), a blocked path (the rook
    [a1a3]), a move that leaves the mover's king attacked ([f7f6] with the
    queen on h5), and squares that are not squares. *)
Lemma makeMove_rejected_witness :
  let s := after MiniChess.firstMove [click_startGame friend None] in
  let s' := after MiniChess.firstMove pinned_pawn in
  let bad := {| from := ""; to := ""; promotion := Some "" |} in
  makeMove (current_makeMove s) (mv "e7" "e5") s = (false, s)
  /\ makeMove (current_makeMove s) (mv "a1" "a3") s = (false, s)
  /\ makeMove (current_makeMove s') (mv "f7" "f6") s' = (false, s')
  /\ makeMove (current_makeMove s) bad s = (false, s).
Proof.
  intros s s' bad.
  split_conj; apply makeMove_rejected; vm_compute; reflexivity.
Defined.

(** The local player is Black and White is to move: refused.  The local
    player is White: [e2e4] is accepted and sent with the new FEN. *)
Lemma makeMove_online_turn_guard_witness :
  (let s := after MiniChess.firstMove online_black in
   makeMove (current_makeMove s) (mv "e7" "e5") s = (false, s))
  /\ (let s := after MiniChess.firstMove online_white in
      let r := makeMove (current_makeMove s) (mv "e2" "e4") s in
      fst r = true
      /\ outbox (snd r)
         = [emit_create_room;
            emit_move "ROOM" (mv "e2" "e4")
              "rnbqkbnr/pppppppp/8/8/4P3/8/PPPP1PPP/RNBQKBNR b - - 0 1"]).
Proof.
  split; intros s.
  - assert (Honline : gameMode s = online) by (vm_compute; reflexivity).
    assert (Hturn : turn E0 (deref s (game s)) <> playerColor s)
      by (vm_compute; discriminate).
    exact (proj1 (makeMove_online_turn_guard E0 (mv "e7" "e5") s Honline) Hturn).
  - intros r. subst r.
    assert (Honline : gameMode s = online) by (vm_compute; reflexivity).
    assert (Hturn : turn E0 (deref s (game s)) = playerColor s)
      by (vm_compute; reflexivity).
    assert (Hroom : roomId s = "ROOM") by (vm_compute; reflexivity).
    assert (Hout : outbox s = [emit_create_room]) by (vm_compute; reflexivity).
    assert (Hmove : exists g1 result,
               move E0 (deref s (game s)) (ObjMove (mv "e2" "e4")) = Some (g1, result)
               /\ fen_of E0 g1 = "rnbqkbnr/pppppppp/8/8/4P3/8/PPPP1PPP/RNBQKBNR b - - 0 1").
    { eexists. eexists. split; vm_compute; reflexivity. }
    destruct Hmove as (g1 & result & Hmove & Hfen).
    pose proof (proj2 (makeMove_online_turn_guard E0 (mv "e2" "e4") s Honline) Hturn) as H.
    rewrite Hmove in H. destruct H as (Hok & _ & _ & Hsent).
    split; [exact Hok|]. rewrite Hsent, Hout, Hroom, Hfen. reflexivity.
Defined.

(** Against the bot, with Black to move, the human's [e7e5] is accepted. *)
Lemma makeMove_bot_no_turn_check_witness :
  let s := after MiniChess.firstMove bot_to_move in
  fst (makeMove (current_makeMove s) (mv "e7" "e5") s) = true.
Proof.
  intros s.
  assert (Hbot : gameMode s = bot) by (vm_compute; reflexivity).
  assert (Hmove : exists g1 result,
             move E0 (deref s (game s)) (ObjMove (mv "e7" "e5")) = Some (g1, result)).
  { vm_compute. eexists. eexists. reflexivity. }
  destruct Hmove as (g1 & result & Hmove).
  exact (proj1 (makeMove_bot_no_turn_check E0 (mv "e7" "e5") s g1 result Hbot Hmove)).
Defined.

(** C4 fails on the code: against the bot, after 1. e4 it is the bot's
    side to move, the board is shown, and the human's [e7e5] is accepted
    and changes the position. *)
Lemma human_moves_on_bot_turn :
  let s := after MiniChess.firstMove bot_to_move in
  let r := makeMove (current_makeMove s) (mv "e7" "e5") s in
  gameMode s = bot
  /\ turn E0 (deref s (game s)) = cb
  /\ enabled s (board_onMove (mv "e7" "e5")) = true
  /\ fst r = true
  /\ fen (snd r) = "rnbqkbnr/pppp1ppp/8/4p3/4P3/8/PPPP1PPP/RNBQKBNR w - - 0 2"
  /\ r <> (false, s).
Proof.
  intros s r.
  assert (Hfst : fst r = true) by (vm_compute; reflexivity).
  evaluate.
  intros Heq. rewrite Heq in Hfst. discriminate Hfst.
Qed.



(** The code [ABCD] is typed and joined; the relay answers with an error. *)
Lemma joinRoom_records_code_witness :
  let s := after MiniChess.firstMove
             [click_startGame online None; input_joinRoomId "abcd"] in
  roomId (joinRoom s) = "ABCD"
  /\ roomId (step MiniChess.firstMove (joinRoom s) (recv_error "Room not found")) = "ABCD".
Proof.
  intros s.
  assert (Hcode : joinRoomId s = "ABCD") by (vm_compute; reflexivity).
  assert (Hne : joinRoomId s <> "") by (rewrite Hcode; discriminate).
  pose proof (proj2 (joinRoom_records_code E0 MiniChess.firstMove s) Hne)
    as (Hroom & _ & _ & _ & _ & Herr).
  rewrite <- Hcode. split; [exact Hroom|]. exact (proj1 (Herr _)).
Defined.

(** Leaving the online panel of the session that [leave_online_with_timer]
    sets up. *)
Lemma returnToMenu_online_witness :
  let s := after MiniChess.firstMove
             (bot_to_move ++ [click_returnToMenu; click_startGame online None;
                              input_joinRoomId "abcd"; click_joinRoom])%list in
  socket (returnToMenu s) = sock_closed
  /\ timers (returnToMenu s) = timers s
  /\ enabled (returnToMenu s) timer_fires = true.
Proof.
  intros s.
  assert (Honline : gameMode s = online) by (vm_compute; reflexivity).
  assert (Hpending : negb (bool_decide (timers s = [])) = true)
    by (vm_compute; reflexivity).
  pose proof (returnToMenu_online E0 s Honline)
    as (Hsock & _ & _ & _ & _ & _ & _ & _ & Htimers & _ & _ & Hfire).
  split_conj.
  - exact Hsock.
  - exact Htimers.
  - rewrite Hfire. exact Hpending.
Defined.

(** C8 fails on the code: a bot timer set before the online session is
    still pending when the session is left, fires afterwards, moves on
    the [Chess] object it captured and overwrites the [fen] cell. *)
Lemma timer_fires_after_leaving_online :
  let s := after MiniChess.firstMove leave_online_with_timer in
  let s' := step MiniChess.firstMove s timer_fires in
  can_happen MiniChess.firstMove leave_online_with_timer = true
  /\ (gameMode s, view s, socket s, roomId s) = (online, menu, sock_closed, "")
  /\ enabled s timer_fires = true
  /\ fen s = "rnbqkbnr/pppppppp/8/8/8/8/PPPPPPPP/RNBQKBNR w - - 0 1"
  /\ fen s' = "rnbqkbnr/1ppppppp/8/p7/4P3/8/PPPP1PPP/RNBQKBNR w - - 0 2"
  /\ s' <> s.
Proof.
  intros s s'.
  assert (Hfen : fen s' <> fen s) by (vm_compute; discriminate).
  evaluate.
  intros Heq. apply Hfen. by rewrite Heq.
Qed.

(** The timer of [copyRoomId] outlives the session in the same way: the
    room code is copied, the session is left within the two seconds, and
    the timer then clears [copied]. *)
Lemma copied_timer_fires_after_leaving_online :
  let s := after MiniChess.firstMove leave_online_after_copy in
  let s' := step MiniChess.firstMove s copied_timer_fires in
  can_happen MiniChess.firstMove leave_online_after_copy = true
  /\ socket s = sock_closed
  /\ enabled s copied_timer_fires = true
  /\ copied s = true
  /\ copied s' = false.
Proof.
  intros s s'. evaluate.
Qed.

(** C5 fails on the code.  [resetGame] clears [isBotThinking] while the
    timer of the old game is pending, so the move in the new game starts
    a second computation: two callbacks are pending.  When the first has
    finished, the effect starts a third beside the second, and when all have
    finished the bot has also played a white move ([Na3]) in the new game. *)
Theorem reset_lets_second_computation_start :
  let s := after MiniChess.firstMove reset_while_thinking in
  let s1 := step MiniChess.firstMove s timer_fires in
  let s3 := step MiniChess.firstMove (step MiniChess.firstMove s1 timer_fires) timer_fires in
  can_happen MiniChess.firstMove reset_while_thinking = true
  /\ length (timers s) = 2%nat
  /\ map bt_game (timers s) = [1%nat; 2%nat]
  /\ game s = 2%nat
  /\ length (timers s1) = 2%nat
  /\ map bt_game (timers s1) = [2%nat; 2%nat]
  /\ fen_of E0 (deref s3 (game s3))
     = "rnbqkbnr/1ppppppp/8/p7/4P3/N7/PPPP1PPP/R1BQKBNR b - - 1 2".
Proof.
  intros s s1 s3. evaluate.
Qed.

(** C6 fails on the code.  A pawn taken by the remote side is not entered
    in the ledger, while the same handler sequence with the local side
    taking enters it; and a pawn taken by the bot with check is not
    entered either. *)
Theorem captures_missing_from_ledger :
  (let s := after MiniChess.firstMove remote_capture in
   can_happen MiniChess.firstMove remote_capture = true
   /\ map mr_captured (history E0 (deref s (game s))) = [None; None; None; Some tp]
   /\ captured s = empty_ledger)
  /\ (let s := after MiniChess.firstMove local_capture in
      captured s = {| led_w := [{| cp_type := tp; cp_color := cb |}]; led_b := [] |})
  /\ (let s := after scripted bot_capture_with_check in
      can_happen scripted bot_capture_with_check = true
      /\ last (history E0 (deref s (game s)))
         = Some {| mr_color := cb; mr_from := "h4"; mr_to := "e4";
                   mr_piece := tq; mr_captured := Some tp |}
      /\ inCheck E0 (deref s (game s)) = true
      /\ isGameOver E0 (deref s (game s)) = false
      /\ captured s = empty_ledger).
Proof.
  split; [|split]; cbv zeta; evaluate.
Qed.

(** * Instances of the properties of reachable states *)

Lemma after_reachable sel es :
  can_happen sel es = true -> reachable sel (after sel es).
Proof. intros H. exists es. by split. Qed.

(** Peer [A] after [game_start]: the board is shown, the game started. *)
Lemma online_board_only_after_start_witness :
  isOnlineGameStarted (after MiniChess.firstMove online_white) = true.
Proof.
  apply (online_board_only_after_start E0 MiniChess.firstMove).
  - apply after_reachable. vm_compute. reflexivity.
  - vm_compute. reflexivity.
  - vm_compute. reflexivity.
Defined.

(** A move received is not sent back. *)
Lemma relay_messages_only_from_witness :
  let s := after MiniChess.firstMove (online_white ++ [board_onMove (mv "e2" "e4")])%list in
  let e := recv_move_received (mv "d7" "d5")
             "rnbqkbnr/ppp1pppp/8/3p4/4P3/8/PPPP1PPP/RNBQKBNR w - - 0 2" in
  outbox (step MiniChess.firstMove s e) = outbox s.
Proof.
  intros s e. apply relay_messages_only_from.
  - apply after_reachable. vm_compute. reflexivity.
  - reflexivity.
Defined.

(** The timer of the game that was reset leaves the new game's object
    (reference 2) alone. *)
Lemma botCallback_writes_captured_objects_only_witness :
  let s := after MiniChess.firstMove reset_while_thinking in
  deref (botCallback MiniChess.firstMove orphan_timer s) 2 = deref s 2.
Proof.
  intros s.
  assert (H1 : 2%nat <> bt_game orphan_timer) by (vm_compute; lia).
  assert (H2 : 2%nat <> mm_game (bt_makeMove orphan_timer)) by (vm_compute; lia).
  exact (proj1 (proj2 (botCallback_writes_captured_objects_only E0 MiniChess.firstMove
                         orphan_timer s 2 H1 H2))).
Defined.

(** [Reset Game] while the bot's timer is pending. *)
Lemma reset_orphans_pending_timers_witness :
  let s := after MiniChess.firstMove bot_to_move in
  game (step MiniChess.firstMove s click_resetGame) <> game s.
Proof.
  intros s.
  assert (Hr : reachable MiniChess.firstMove s)
    by (apply after_reachable; vm_compute; reflexivity).
  pose proof (reset_orphans_pending_timers E0 MiniChess.firstMove s Hr) as H.
  cbv zeta in H. exact (proj1 (proj2 H)).
Defined.

(** The selector answers [e2e4] for Black: the callback changes nothing
    and the flag stays set. *)
Lemma rejected_bot_move_leaves_flag_set_witness :
  let s := after stubborn bot_to_move in
  step stubborn s timer_fires = setTimers E0 [] s.
Proof.
  intros s.
  assert (Ht : timers s = [orphan_timer]) by (vm_compute; reflexivity).
  assert (Hbest : stubborn (deref s (bt_game orphan_timer)) (bt_difficulty orphan_timer)
                  = Some "e2e4") by reflexivity.
  assert (Htruthy : truthy "e2e4" = true) by reflexivity.
  assert (Hbogus : move E0 (deref s (mm_game (bt_makeMove orphan_timer)))
                     (ObjMove {| from := ""; to := ""; promotion := Some "" |}) = None)
    by (vm_compute; reflexivity).
  assert (Hmove : move E0 (deref s (bt_game orphan_timer)) (SanMove "e2e4") = None)
    by (vm_compute; reflexivity).
  exact (proj1 (rejected_bot_move_leaves_flag_set E0 stubborn s orphan_timer [] "e2e4"
                  Ht Hbest Htruthy Hbogus Hmove)).
Defined.

(** The bot's first reply to 1. e4 with the selector [firstMove]. *)
Lemma bot_callback_applies_selected_move_witness :
  let s := after MiniChess.firstMove bot_to_move in
  let s' := botCallback MiniChess.firstMove orphan_timer s in
  fen s' = "rnbqkbnr/1ppppppp/8/p7/4P3/8/PPPP1PPP/RNBQKBNR w - - 0 2"
  /\ isBotThinking s' = false.
Proof.
  intros s s'. subst s'.
  assert (Hmode : mm_gameMode (bt_makeMove orphan_timer) <> online)
    by (vm_compute; discriminate).
  assert (Hbest : MiniChess.firstMove (deref s (bt_game orphan_timer))
                    (bt_difficulty orphan_timer) = Some "a7a5")
    by (vm_compute; reflexivity).
  assert (Htruthy : truthy "a7a5" = true) by reflexivity.
  assert (Hbogus : move E0 (deref s (mm_game (bt_makeMove orphan_timer)))
                     (ObjMove {| from := ""; to := ""; promotion := Some "" |}) = None)
    by (vm_compute; reflexivity).
  assert (Hmove : exists g2 result lastMove,
             move E0 (deref s (bt_game orphan_timer)) (SanMove "a7a5") = Some (g2, result)
             /\ last (history E0 g2) = Some lastMove
             /\ fen_of E0 g2 = "rnbqkbnr/1ppppppp/8/p7/4P3/8/PPPP1PPP/RNBQKBNR w - - 0 2").
  { eexists. eexists. eexists. split; [vm_compute; reflexivity|].
    split; vm_compute; reflexivity. }
  destruct Hmove as (g2 & result & lastMove & Hmove & Hlast & Hfen).
  pose proof (bot_callback_applies_selected_move E0 MiniChess.firstMove s orphan_timer
                "a7a5" g2 result lastMove Hmode Hbest Htruthy Hbogus Hmove Hlast) as H.
  cbv zeta in H. destruct H as (_ & H1 & H2 & _).
  split; [exact (eq_trans H1 Hfen)|exact H2].
Defined.

(** Peer [B] gets [game_start] again with a snapshot, as after a
    reconnection: Black, and the snapshot is the position. *)
Lemma game_start_effects_witness :
  let s := after MiniChess.firstMove online_black in
  let f := "rnbqkbnr/pppppppp/8/8/4P3/8/PPPP1PPP/RNBQKBNR b - - 0 1" in
  let s' := on_game_start "A" "B" (Some f) s in
  playerColor s' = cb /\ fen s' = f /\ fen_of E0 (deref s' (game s)) = f.
Proof.
  intros s f s'. subst s'.
  assert (Hid : socket_id s = "B") by (vm_compute; reflexivity).
  assert (Hf : f <> "") by discriminate.
  assert (Hload : exists g1, load E0 (deref s (game s)) f = Some g1 /\ fen_of E0 g1 = f).
  { eexists. split; vm_compute; reflexivity. }
  destruct Hload as (g1 & Hload & Hfen).
  pose proof (game_start_effects E0 "A" "B" (Some f) s) as H.
  cbv zeta in H. destruct H as (_ & _ & _ & _ & _ & Hblack & _ & _ & Hsnap & _).
  destruct (Hsnap f g1 eq_refl Hf Hload) as [Hd Hfen'].
  split; [exact (Hblack Hid)|]. split; [exact Hfen'|]. by rewrite Hd.
Defined.

(** After [Cancel], [Create Room] is offered and leaves the socket
    closed. *)
Lemma leaving_online_closes_the_panel_witness :
  let s := after MiniChess.firstMove
             (bot_to_move ++ [click_returnToMenu; click_startGame online None;
                              input_joinRoomId "abcd"; click_joinRoom])%list in
  enabled (returnToMenu s) click_createRoom = true
  /\ socket (step MiniChess.firstMove (returnToMenu s) click_createRoom) = sock_closed.
Proof.
  intros s.
  assert (Honline : gameMode s = online) by (vm_compute; reflexivity).
  pose proof (leaving_online_closes_the_panel E0 MiniChess.firstMove s Honline) as H.
  cbv zeta in H. destruct H as (_ & _ & Hen & _ & Hclosed).
  split; [exact Hen|]. exact (Hclosed click_createRoom Hen).
Defined.

(** [abcd] typed into the join field. *)
Lemma join_code_is_upper_case_witness :
  let s := after MiniChess.firstMove
             [click_startGame online None; input_joinRoomId "abcd"] in
  no_lower (joinRoomId s) = true.
Proof.
  intros s.
  assert (Hr : reachable MiniChess.firstMove s)
    by (apply after_reachable; vm_compute; reflexivity).
  exact (proj1 (join_code_is_upper_case E0 MiniChess.firstMove s Hr)).
Defined.

(** The room code was copied and the session left: the timer is still
    there to clear the mark. *)
Lemma copied_mark_has_timer_witness :
  let s := after MiniChess.firstMove leave_online_after_copy in
  enabled s copied_timer_fires = true
  /\ copied (step MiniChess.firstMove s copied_timer_fires) = false.
Proof.
  intros s. apply copied_mark_has_timer.
  - apply after_reachable. vm_compute. reflexivity.
  - vm_compute. reflexivity.
Defined.

(** Bot, back, online, bot again and two difficulties. *)
Lemma main_menu_calls_witness :
  Forall (fun call => start_call_shape (fst call) (snd call) = true)
    [(online, None); (bot, Some hard); (bot, Some easy)].
Proof.
  assert (Hrun : menu_clicks None [btn_bot; btn_back; btn_online; btn_bot;
                                   btn_difficulty hard; btn_difficulty easy]
                 = Some (Some bot, [(online, None); (bot, Some hard); (bot, Some easy)]))
    by reflexivity.
  exact (proj1 (proj2 (main_menu_calls E0 _ _ _ Hrun))).
Defined.

(** The transport of peer [A] drops and comes back as socket [A2]. *)
Lemma reconnect_rejoins_room_witness :
  let s := after MiniChess.firstMove online_white in
  outbox (steps MiniChess.firstMove s [socket_drop; socket_connect "A2"])
  = [emit_create_room; emit_join_room "ROOM"].
Proof.
  intros s.
  assert (Honline : gameMode s = online) by (vm_compute; reflexivity).
  assert (Hne : roomId s <> "") by (vm_compute; discriminate).
  assert (Hout : (outbox s ++ [emit_join_room (roomId s)])%list
                 = [emit_create_room; emit_join_room "ROOM"])
    by (vm_compute; reflexivity).
  pose proof (reconnect_rejoins_room E0 MiniChess.firstMove s "A2" Honline Hne) as H.
  cbv zeta in H. destruct H as ((H & _) & _).
  exact (eq_trans H Hout).
Defined.

(** Peer [B] before White has moved: the line says so and no move goes
    through. *)
Lemma status_text_matches_turn_guard_witness :
  let s := after MiniChess.firstMove online_black in
  statusText s = "Opponent's Turn"
  /\ makeMove (current_makeMove s) (mv "e7" "e5") s = (false, s).
Proof.
  intros s.
  assert (Hstatus : statusText s = "Opponent's Turn") by (vm_compute; reflexivity).
  split; [exact Hstatus|].
  exact (proj1 (status_text_matches_turn_guard E0 s) Hstatus (mv "e7" "e5")).
Defined.


(** White takes on d5 in an online game: the pawn is entered last in
    White's sequence. *)
Lemma makeMove_appends_capture_witness :
  let s := after MiniChess.firstMove
             (online_white ++
              [board_onMove (mv "e2" "e4");
               recv_move_received (mv "d7" "d5")
                 "rnbqkbnr/ppp1pppp/8/3p4/4P3/8/PPPP1PPP/RNBQKBNR w - - 0 2"])%list in
  ledger_get (captured (snd (makeMove (current_makeMove s) (mv "e4" "d5") s))) cw
  = (ledger_get (captured s) cw ++ [{| cp_type := tp; cp_color := cb |}])%list.
Proof.
  intros s.
  assert (Hturn : mm_gameMode (current_makeMove s) = online ->
                  turn E0 (deref s (mm_game (current_makeMove s)))
                  = mm_playerColor (current_makeMove s))
    by (intros _; vm_compute; reflexivity).
  assert (Hmove : exists g1 result,
             move E0 (deref s (mm_game (current_makeMove s))) (ObjMove (mv "e4" "d5"))
             = Some (g1, result)
             /\ mr_captured result = Some tp /\ mr_color result = cw).
  { eexists. eexists. split; [vm_compute; reflexivity|]. split; reflexivity. }
  destruct Hmove as (g1 & result & Hmove & Hcap & Hcol).
  pose proof (makeMove_appends_capture E0 (current_makeMove s) (mv "e4" "d5") s g1 result
                tp Hturn Hmove Hcap) as H.
  cbv zeta in H. destruct H as [H _]. rewrite Hcol in H. exact H.
Defined.

(** Peer [A] has asked for a room and [room_created] arrives. *)
Lemma waiting_panel_for_both_peers_witness :
  let s := after MiniChess.firstMove
             [click_startGame online None; socket_connect "A"; click_createRoom] in
  panel_waiting (step MiniChess.firstMove s (recv_room_created "ROOM")) = true.
Proof.
  intros s.
  assert (Honline : gameMode s = online) by (vm_compute; reflexivity).
  assert (Hstarted : isOnlineGameStarted s = false) by (vm_compute; reflexivity).
  assert (Hmenu : view s = menu) by (vm_compute; reflexivity).
  assert (Hid : "ROOM" <> "") by discriminate.
  pose proof (proj1 (waiting_panel_for_both_peers E0 MiniChess.firstMove s "ROOM"
                       Honline Hstarted Hmenu) Hid) as H.
  cbv zeta in H. exact (proj1 H).
Defined.
